(** * wg-api: the JSON-RPC dispatch and validation layer

    A shallow embedding of the Go packages [server/jsonrpc], [client] and
    [server] of jamescun/wg-api, and the properties of its specification
    checked against that embedding.

    Conventions of the embedding:
    - a Go [int], [int64] or [time.Duration] is a [Z]; every comparison the
      program makes on them is a comparison with zero, so no wrap-around is
      involved;
    - a Go [string] is a [string] of bytes, so that [String.length] is Go's
      [len];
    - a pointer that the program compares with [nil] is an [option];
    - a pair [(T, error)] returned by a function is a sum [T + error];
    - a bare [error] result is an [option error], [None] being [nil];
    - the functions of the Go standard library and of wgctrl that the server
      calls are fields of the [Runtime] class, the JSON decoder is the
      [Decoder] class, and the WireGuard control client is the record
      [wgctrl.Client]: every theorem holds for all of them. *)

From Stdlib Require Import ZArith List String Ascii Bool Lia DecimalString.
From Stdlib.Strings Require Import Byte.
Import ListNotations.

Local Open Scope string_scope.
Local Open Scope Z_scope.

(** [fmt]'s verb [%d] on an [int]. *)
Definition itoa (n : Z) : string := NilZero.string_of_int (Z.to_int n).

(** ** Package [server/jsonrpc] *)
Module jsonrpc.

(** [type Error struct]. [Data] is an [interface{}]; every call site of
    the program passes [nil], an opaque payload stands for the rest. *)
Record Error : Type := mkError {
  Code : Z;
  Message : string;
  Data : option string
}.

(** [func (e Error) Error() string] *)
Definition Error_Error (e : Error) : string :=
  "Error(" ++ itoa (Code e) ++ "): " ++ Message e.

Definition ParseError (message : string) (data : option string) : Error :=
  {| Code := -32700; Message := message; Data := data |}.

Definition InvalidRequest (message : string) (data : option string) : Error :=
  {| Code := -32600; Message := message; Data := data |}.

Definition MethodNotFound (message : string) (data : option string) : Error :=
  {| Code := -32601; Message := message; Data := data |}.

Definition InvalidParams (message : string) (data : option string) : Error :=
  {| Code := -32602; Message := message; Data := data |}.

Definition InternalError (message : string) (data : option string) : Error :=
  {| Code := -32603; Message := message; Data := data |}.

(** [ServerError]: the body is the same struct literal as its siblings. *)
Definition ServerError (code : Z) (message : string) (data : option string)
  : Error :=
  {| Code := code; Message := message; Data := data |}.

(** A non-nil value of Go's interface [error], as the type switch of
    [response.Write] sees it: a [*Error], or a value of another type, of
    which only the text of its [Error()] method is observable
    ([fmt.Errorf], the errors of the libraries). *)
Inductive error : Type :=
| ErrRPC (e : Error)
| ErrText (msg : string).

(** The method [Error()] of an [error]. *)
Definition error_Error (err : error) : string :=
  match err with
  | ErrRPC e => Error_Error e
  | ErrText msg => msg
  end.

(** [fmt.Errorf(prefix + "%w", err)]: the program never unwraps. *)
Definition Errorf_w (prefix : string) (err : error) : error :=
  ErrText (prefix ++ error_Error err).

(** [type Request struct]; [json.RawMessage] is a byte string. The
    unexported [ctx] is left out: no handler reads its context. *)
Record Request : Type := mkRequest {
  Request_Version : string;
  Method : string;
  Params : string;
  Request_ID : string;
  raddr : string
}.

Definition RemoteAddr (r : Request) : string := raddr r.

Section Response.
(** The values that do not implement [error]. *)
Variable T : Type.

(** An [interface{}] handed to a response writer. *)
Inductive any : Type :=
| Nil
| OfError (err : error)
| Value (v : T).

(** [x == nil] on an [interface{}] and on a [*Error]. *)
Definition is_nil (x : any) : bool :=
  match x with Nil => true | _ => false end.

Definition no_error (e : option Error) : bool :=
  match e with None => true | Some _ => false end.

(** [type response struct] *)
Record response : Type := mkResponse {
  Version : string;
  Result : any;
  Error_ : option Error;
  ID : string
}.

(** [func (r *response) Write(res interface{}) error]: the returned
    error and the receiver after the call. *)
Definition response_Write (res : any) (r : response)
  : option error * response :=
  if negb (is_nil (Result r)) && negb (no_error (Error_ r)) then
    (Some (ErrText "response already written"), r)
  else
    match res with
    | OfError (ErrRPC rpcErr) =>
        (None, {| Version := Version r; Result := Result r;
                  Error_ := Some rpcErr; ID := ID r |})
    | OfError err =>
        (None, {| Version := Version r; Result := Result r;
                  Error_ := Some (InternalError (error_Error err) None);
                  ID := ID r |})
    | _ =>
        (None, {| Version := Version r; Result := res;
                  Error_ := Error_ r; ID := ID r |})
    end.

(** [type ResponseWriter interface]: a writer state [W] with its
    [Write] method. *)
Class ResponseWriter (W : Type) : Type :=
  writer_Write : any -> W -> option error * W.

#[global] Instance response_ResponseWriter : ResponseWriter response :=
  response_Write.

(** The response [HTTP] hands to the handler:
    [&response{Version: "2.0", ID: req.ID}]. *)
Definition HTTP_response (req : Request) : response :=
  {| Version := "2.0"; Result := Nil; Error_ := None;
     ID := Request_ID req |}.
End Response.

Arguments Nil {T}.
Arguments OfError {T} err.
Arguments Value {T} v.
Arguments is_nil {T} x.
Arguments response T : clear implicits.
Arguments Version {T} r.
Arguments Result {T} r.
Arguments Error_ {T} r.
Arguments ID {T} r.
Arguments mkResponse {T}.
Arguments response_Write {T} res r.
Arguments writer_Write {T W _} res w.
Arguments HTTP_response {T} req.
End jsonrpc.

(** [wgtypes.Key] is [[32]byte]: Go's [==] on it is equality of the bytes. *)
Definition Key : Type := list byte.

(** ** What the server links against

    The types and functions of [net], [time], [strconv] and [wgtypes] that
    the server uses, and the state of everything outside the process (the
    name resolver, the WireGuard interfaces). [net.ResolveUDPAddr] may look
    a host name up, so it takes and returns that state; the parsers are
    functions of their argument. *)
Class Runtime : Type := {
  World : Type;
  net_UDPAddr : Type;
  net_IPNet : Type;
  time_Time : Type;
  (** [wgtypes.ParseKey] and [Key.String] *)
  wgtypes_ParseKey : string -> Key + jsonrpc.error;
  Key_String : Key -> string;
  (** [DeviceType.String] *)
  DeviceType_String : Z -> string;
  (** [net.ResolveUDPAddr] on the network udp, and the [String] method of
      a pointer to [UDPAddr], which accepts the nil pointer *)
  net_ResolveUDPAddr : string -> World -> (net_UDPAddr + jsonrpc.error) * World;
  UDPAddr_String : option net_UDPAddr -> string;
  (** [net.ParseCIDR], of which the server drops the first result, and
      [IPNet.String] *)
  net_ParseCIDR : string -> net_IPNet + jsonrpc.error;
  IPNet_String : net_IPNet -> string;
  (** [time.ParseDuration] and [Duration.String] *)
  time_ParseDuration : string -> Z + jsonrpc.error;
  Duration_String : Z -> string;
  (** [fmt]'s verb [%q] on a string *)
  strconv_Quote : string -> string
}.

(** ** Package [client] *)
Module client.

Record Device : Type := mkDevice {
  Device_Name : string;
  Device_Type : string;
  Device_PublicKey : string;
  Device_ListenPort : Z;
  Device_FirewallMark : Z;
  Device_NumPeers : Z
}.

Record GetDeviceInfoRequest : Type := mkGetDeviceInfoRequest { }.

Record GetDeviceInfoResponse : Type := mkGetDeviceInfoResponse {
  GetDeviceInfoResponse_Device : option Device
}.

Record ListPeersRequest : Type := mkListPeersRequest {
  Limit : Z;
  Offset : Z
}.

Record GetPeerRequest : Type := mkGetPeerRequest {
  GetPeerRequest_PublicKey : string
}.

Record AddPeerRequest : Type := mkAddPeerRequest {
  AddPeerRequest_PublicKey : string;
  PresharedKey : string;
  AddPeerRequest_Endpoint : string;
  AddPeerRequest_PersistentKeepAlive : string;
  AddPeerRequest_AllowedIPs : list string;
  AddPeerRequest_ValidateOnly : bool
}.

Record AddPeerResponse : Type := mkAddPeerResponse {
  AddPeerResponse_OK : bool
}.

Record RemovePeerRequest : Type := mkRemovePeerRequest {
  RemovePeerRequest_PublicKey : string;
  RemovePeerRequest_ValidateOnly : bool
}.

Record RemovePeerResponse : Type := mkRemovePeerResponse {
  RemovePeerResponse_OK : bool
}.

Section WithRuntime.
Context `{Runtime}.

Record Peer : Type := mkPeer {
  Peer_PublicKey : string;
  HasPresharedKey : bool;
  Peer_Endpoint : string;
  Peer_PersistentKeepAlive : string;
  LastHandshake : time_Time;
  ReceiveBytes : Z;
  TransmitBytes : Z;
  Peer_AllowedIPs : list string;
  ProtocolVersion : Z
}.

Record ListPeersResponse : Type := mkListPeersResponse {
  Peers : list Peer
}.

Record GetPeerResponse : Type := mkGetPeerResponse {
  GetPeerResponse_Peer : option Peer
}.
End WithRuntime.
End client.

(** [json.Unmarshal(r.Params, &arg)], one function for each type of
    [arg]. *)
Class Decoder : Type := {
  Unmarshal_ListPeersRequest : string -> client.ListPeersRequest + jsonrpc.error;
  Unmarshal_GetPeerRequest : string -> client.GetPeerRequest + jsonrpc.error;
  Unmarshal_AddPeerRequest : string -> client.AddPeerRequest + jsonrpc.error;
  Unmarshal_RemovePeerRequest : string -> client.RemovePeerRequest + jsonrpc.error
}.

(** ** Package [wgtypes]: the fields the server reads or sets; the fields
    it leaves at their zero value are not modelled. *)
Module wgtypes.
Section WithRuntime.
Context `{Runtime}.

(** [Key{}] *)
Definition Key_zero : Key := repeat "000"%byte 32.

Definition Key_eqb (a b : Key) : bool :=
  if list_eq_dec byte_eq_dec a b then true else false.

Record Peer : Type := mkPeer {
  Peer_PublicKey : Key;
  Peer_PresharedKey : Key;
  Peer_Endpoint : option net_UDPAddr;
  Peer_PersistentKeepaliveInterval : Z;
  LastHandshakeTime : time_Time;
  ReceiveBytes : Z;
  TransmitBytes : Z;
  Peer_AllowedIPs : list net_IPNet;
  ProtocolVersion : Z
}.

Record Device : Type := mkDevice {
  Name : string;
  Type_ : Z;
  PublicKey : Key;
  ListenPort : Z;
  FirewallMark : Z;
  Peers : list Peer
}.

Record PeerConfig : Type := mkPeerConfig {
  PeerConfig_PublicKey : Key;
  Remove : bool;
  PeerConfig_PresharedKey : option Key;
  PeerConfig_Endpoint : option net_UDPAddr;
  PeerConfig_PersistentKeepaliveInterval : option Z;
  PeerConfig_AllowedIPs : list net_IPNet
}.

Record Config : Type := mkConfig {
  Config_Peers : list PeerConfig
}.
End WithRuntime.
End wgtypes.

(** ** Package [wgctrl]: the Interface Control Provider. The two methods
    the server calls read or change the state of the world. *)
Module wgctrl.
Section WithRuntime.
Context `{Runtime}.

Record Client : Type := mkClient {
  Device : string -> World -> (wgtypes.Device + jsonrpc.error) * World;
  ConfigureDevice :
    string -> wgtypes.Config -> World -> option jsonrpc.error * World
}.
End WithRuntime.
End wgctrl.

(** ** Package [server] *)
Module server.
Import jsonrpc.

Section WithRuntime.
Context `{Runtime}.

(** *** Effects

    A handler runs against the world and a log of the calls it made to
    the provider. *)
Inductive Call : Type :=
| CallDevice (name : string)
| CallConfigureDevice (name : string) (cfg : wgtypes.Config).

Record State : Type := mkState {
  world : World;
  calls : list Call
}.

Definition M (A : Type) : Type := State -> A * State.

Definition ret {A : Type} (a : A) : M A := fun st => (a, st).

Definition bind {A B : Type} (c : M A) (k : A -> M B) : M B :=
  fun st => let (a, st') := c st in k a st'.

(** A computation that may return early with a Go [error]. *)
Definition E (A : Type) : Type := M (A + error).

Definition ok {A : Type} (a : A) : E A := ret (inl a).

Definition throw {A : Type} (err : error) : E A := ret (inr err).

Definition bindE {A B : Type} (c : E A) (k : A -> E B) : E B :=
  bind c (fun r => match r with
                   | inl a => k a
                   | inr err => throw err
                   end).

(** [if err != nil { return nil, err }] after a validator. *)
Definition check (r : option error) : E unit :=
  match r with
  | None => ok tt
  | Some err => throw err
  end.

(** [x, err := f(..); if err != nil { return nil, wrap(err) }] *)
Definition try {A : Type} (r : A + error) (wrap : error -> error) : E A :=
  match r with
  | inl a => ok a
  | inr err => throw (wrap err)
  end.

(** Reading a field through a request pointer. Go panics on [nil]; every
    handler validates first, and the validators reject [nil]
    ([validators_reject_nil] and [handlers_on_nil] below), so the branch
    is never taken. *)
Definition deref {A : Type} (p : option A) : E A :=
  match p with
  | Some a => ok a
  | None =>
      throw (ErrText
        "runtime error: invalid memory address or nil pointer dereference")
  end.

(** [s.wg.Device(name)] *)
Definition wg_Device (c : wgctrl.Client) (name : string)
  : M (wgtypes.Device + error) :=
  fun st =>
    let (r, w) := wgctrl.Device c name (world st) in
    (r, {| world := w; calls := (calls st ++ [CallDevice name])%list |}).

(** [s.wg.ConfigureDevice(name, cfg)] *)
Definition wg_ConfigureDevice (c : wgctrl.Client) (name : string)
  (cfg : wgtypes.Config) : M (option error) :=
  fun st =>
    let (r, w) := wgctrl.ConfigureDevice c name cfg (world st) in
    (r, {| world := w;
           calls := (calls st ++ [CallConfigureDevice name cfg])%list |}).

(** [net.ResolveUDPAddr]: no call to the provider. *)
Definition ResolveUDPAddr (addr : string) : M (net_UDPAddr + error) :=
  fun st =>
    let (r, w) := net_ResolveUDPAddr addr (world st) in
    (r, {| world := w; calls := calls st |}).
End WithRuntime.

Declare Scope go_scope.
Delimit Scope go_scope with go.
Notation "x <- c ;; k" := (bind c (fun x => k))
  (at level 61, c at next level, right associativity) : go_scope.
Notation "x <~ c ;; k" := (bindE c (fun x => k))
  (at level 61, c at next level, right associativity) : go_scope.
Notation "c ;;; k" := (bindE c (fun _ => k))
  (at level 61, right associativity) : go_scope.
Local Open Scope go_scope.

Section WithRuntime.
Context `{Runtime}.

(** [InvalidParams(message, nil)] as an [error]. *)
Definition invalid (message : string) : error :=
  ErrRPC (InvalidParams message None).

Record Server : Type := mkServer {
  wg : wgctrl.Client;
  deviceName : string
}.

Definition NewServer (wg : wgctrl.Client) (deviceName : string)
  : Server + error :=
  inl {| wg := wg; deviceName := deviceName |}.

Definition GetDeviceInfo (s : Server)
  (req : option client.GetDeviceInfoRequest)
  : E client.GetDeviceInfoResponse :=
  r <- wg_Device (wg s) (deviceName s) ;;
  dev <~ try r (Errorf_w "could not get WireGuard device: ") ;;
  ok {| client.GetDeviceInfoResponse_Device := Some
          {| client.Device_Name := wgtypes.Name dev;
             client.Device_Type := DeviceType_String (wgtypes.Type_ dev);
             client.Device_PublicKey := Key_String (wgtypes.PublicKey dev);
             client.Device_ListenPort := wgtypes.ListenPort dev;
             client.Device_FirewallMark := wgtypes.FirewallMark dev;
             client.Device_NumPeers :=
               Z.of_nat (List.length (wgtypes.Peers dev)) |} |}.

Definition validateListPeersRequest (req : option client.ListPeersRequest)
  : option error :=
  match req with
  | None => Some (invalid "request body required")
  | Some req =>
      if client.Limit req <? 0 then
        Some (invalid "limit must be positive integer")
      else if client.Offset req <? 0 then
        Some (invalid "offset must be positive integer")
      else None
  end.

Definition peer2rpc (peer : wgtypes.Peer) : client.Peer :=
  let keepAlive :=
    if 0 <? wgtypes.Peer_PersistentKeepaliveInterval peer
    then Duration_String (wgtypes.Peer_PersistentKeepaliveInterval peer)
    else "" in
  let allowedIPs :=
    fold_left (fun allowedIPs allowedIP =>
                 (allowedIPs ++ [IPNet_String allowedIP])%list)
              (wgtypes.Peer_AllowedIPs peer) [] in
  {| client.Peer_PublicKey := Key_String (wgtypes.Peer_PublicKey peer);
     client.HasPresharedKey :=
       negb (wgtypes.Key_eqb (wgtypes.Peer_PresharedKey peer) wgtypes.Key_zero);
     client.Peer_Endpoint := UDPAddr_String (wgtypes.Peer_Endpoint peer);
     client.Peer_PersistentKeepAlive := keepAlive;
     client.LastHandshake := wgtypes.LastHandshakeTime peer;
     client.ReceiveBytes := wgtypes.ReceiveBytes peer;
     client.TransmitBytes := wgtypes.TransmitBytes peer;
     client.Peer_AllowedIPs := allowedIPs;
     client.ProtocolVersion := wgtypes.ProtocolVersion peer |}.

(** [ListPeers]: the loop appends the translation of each peer. *)
Definition ListPeers (s : Server) (req : option client.ListPeersRequest)
  : E client.ListPeersResponse :=
  check (validateListPeersRequest req) ;;;
  r <- wg_Device (wg s) (deviceName s) ;;
  dev <~ try r (Errorf_w "could not get WireGuard device: ") ;;
  let peers :=
    fold_left (fun peers peer => (peers ++ [peer2rpc peer])%list)
              (wgtypes.Peers dev) [] in
  ok {| client.Peers := peers |}.

Definition validateGetPeerRequest (req : option client.GetPeerRequest)
  : option error :=
  match req with
  | None => Some (invalid "request body required")
  | Some req =>
      if (client.GetPeerRequest_PublicKey req =? "")%string then
        Some (invalid "public key is required")
      else if negb (String.length (client.GetPeerRequest_PublicKey req) =? 44)%nat then
        Some (invalid "malformed public key")
      else
        match wgtypes_ParseKey (client.GetPeerRequest_PublicKey req) with
        | inr err =>
            Some (invalid ("invalid public key: " ++ error_Error err))
        | inl _ => None
        end
  end.

(** [GetPeer]: the loop returns at the first peer whose key is equal. *)
Definition GetPeer (s : Server) (req : option client.GetPeerRequest)
  : E client.GetPeerResponse :=
  check (validateGetPeerRequest req) ;;;
  r <- wg_Device (wg s) (deviceName s) ;;
  dev <~ try r (Errorf_w "could not get WireGuard device: ") ;;
  req <~ deref req ;;
  publicKey <~ try (wgtypes_ParseKey (client.GetPeerRequest_PublicKey req))
                   (fun err => invalid ("invalid public key: " ++ error_Error err)) ;;
  match find (fun peer => wgtypes.Key_eqb (wgtypes.Peer_PublicKey peer) publicKey)
             (wgtypes.Peers dev) with
  | Some peer => ok {| client.GetPeerResponse_Peer := Some (peer2rpc peer) |}
  | None => ok {| client.GetPeerResponse_Peer := None |}
  end.

(** The loop of [validateAddPeerRequest] over [req.AllowedIPs]. *)
Fixpoint validateAllowedIPs (allowedIPs : list string) : E unit :=
  match allowedIPs with
  | [] => ok tt
  | allowedIP :: rest =>
      match net_ParseCIDR allowedIP with
      | inr err =>
          throw (invalid ("range " ++ strconv_Quote allowedIP
                          ++ " is not valid: " ++ error_Error err))
      | inl _ => validateAllowedIPs rest
      end
  end.

(** [validateAddPeerRequest]: the result [inr err] is the error it
    returns, [inl tt] is [nil]. It runs in [E] because resolving the
    endpoint is an effect. *)
Definition validateAddPeerRequest (req : option client.AddPeerRequest)
  : E unit :=
  match req with
  | None => throw (invalid "request body required")
  | Some req =>
      (if (client.AddPeerRequest_PublicKey req =? "")%string then
         throw (invalid "public key is required")
       else if negb (String.length (client.AddPeerRequest_PublicKey req) =? 44)%nat then
         throw (invalid "malformed public key")
       else ok tt) ;;;
      _ <~ try (wgtypes_ParseKey (client.AddPeerRequest_PublicKey req))
               (fun err => invalid ("invalid public key: " ++ error_Error err)) ;;
      (if negb (client.PresharedKey req =? "")%string then
         (if negb (String.length (client.PresharedKey req) =? 44)%nat then
            throw (invalid "malformed preshared key")
          else ok tt) ;;;
         _ <~ try (wgtypes_ParseKey (client.PresharedKey req))
                  (fun err => invalid ("invalid preshared key: " ++ error_Error err)) ;;
         ok tt
       else ok tt) ;;;
      (if negb (client.AddPeerRequest_Endpoint req =? "")%string then
         r <- ResolveUDPAddr (client.AddPeerRequest_Endpoint req) ;;
         _ <~ try r (fun err => invalid ("invalid endpoint: " ++ error_Error err)) ;;
         ok tt
       else ok tt) ;;;
      (if negb (client.AddPeerRequest_PersistentKeepAlive req =? "")%string then
         _ <~ try (time_ParseDuration (client.AddPeerRequest_PersistentKeepAlive req))
                  (fun err => invalid ("invalid keepalive: " ++ error_Error err)) ;;
         ok tt
       else ok tt) ;;;
      validateAllowedIPs (client.AddPeerRequest_AllowedIPs req)
  end.

(** The loop of [AddPeer] over [req.AllowedIPs], appending to
    [peer.AllowedIPs]. *)
Fixpoint appendAllowedIPs (allowedIPs : list string) (acc : list net_IPNet)
  : E (list net_IPNet) :=
  match allowedIPs with
  | [] => ok acc
  | allowedIP :: rest =>
      match net_ParseCIDR allowedIP with
      | inr err =>
          throw (invalid ("range " ++ strconv_Quote allowedIP
                          ++ " is not valid: " ++ error_Error err))
      | inl aip => appendAllowedIPs rest (acc ++ [aip])%list
      end
  end.

(** [AddPeer]: the fields of [peer] are computed in the order the
    source assigns them. *)
Definition AddPeer (s : Server) (req : option client.AddPeerRequest)
  : E client.AddPeerResponse :=
  validateAddPeerRequest req ;;;
  req <~ deref req ;;
  if client.AddPeerRequest_ValidateOnly req then
    ok {| client.AddPeerResponse_OK := false |}
  else
    publicKey <~ try (wgtypes_ParseKey (client.AddPeerRequest_PublicKey req))
                     (fun err => invalid ("invalid public key: " ++ error_Error err)) ;;
    presharedKey <~
      (if negb (client.PresharedKey req =? "")%string then
         pk <~ try (wgtypes_ParseKey (client.PresharedKey req))
                   (fun err => invalid ("invalid preshared key: " ++ error_Error err)) ;;
         ok (Some pk)
       else ok None) ;;
    endpoint <~
      (if negb (client.AddPeerRequest_Endpoint req =? "")%string then
         r <- ResolveUDPAddr (client.AddPeerRequest_Endpoint req) ;;
         addr <~ try r (fun err => invalid ("invalid endpoint: " ++ error_Error err)) ;;
         ok (Some addr)
       else ok None) ;;
    keepAlive <~
      (if negb (client.AddPeerRequest_PersistentKeepAlive req =? "")%string then
         d <~ try (time_ParseDuration (client.AddPeerRequest_PersistentKeepAlive req))
                  (fun err => invalid ("invalid keepalive: " ++ error_Error err)) ;;
         ok (Some d)
       else ok None) ;;
    allowedIPs <~ appendAllowedIPs (client.AddPeerRequest_AllowedIPs req) [] ;;
    let peer :=
      {| wgtypes.PeerConfig_PublicKey := publicKey;
         wgtypes.Remove := false;
         wgtypes.PeerConfig_PresharedKey := presharedKey;
         wgtypes.PeerConfig_Endpoint := endpoint;
         wgtypes.PeerConfig_PersistentKeepaliveInterval := keepAlive;
         wgtypes.PeerConfig_AllowedIPs := allowedIPs |} in
    err <- wg_ConfigureDevice (wg s) (deviceName s)
             {| wgtypes.Config_Peers := [peer] |} ;;
    match err with
    | Some err => throw (Errorf_w "could not configure WireGuard device: " err)
    | None => ok {| client.AddPeerResponse_OK := true |}
    end.

Definition validateRemovePeerRequest (req : option client.RemovePeerRequest)
  : option error :=
  match req with
  | None => Some (invalid "request body required")
  | Some req =>
      if (client.RemovePeerRequest_PublicKey req =? "")%string then
        Some (invalid "public key is required")
      else if negb (String.length (client.RemovePeerRequest_PublicKey req) =? 44)%nat then
        Some (invalid "malformed public key")
      else
        match wgtypes_ParseKey (client.RemovePeerRequest_PublicKey req) with
        | inr err =>
            Some (invalid ("invalid public key: " ++ error_Error err))
        | inl _ => None
        end
  end.

Definition RemovePeer (s : Server) (req : option client.RemovePeerRequest)
  : E client.RemovePeerResponse :=
  check (validateRemovePeerRequest req) ;;;
  req <~ deref req ;;
  if client.RemovePeerRequest_ValidateOnly req then
    ok {| client.RemovePeerResponse_OK := false |}
  else
    publicKey <~ try (wgtypes_ParseKey (client.RemovePeerRequest_PublicKey req))
                     (Errorf_w "invalid public key: ") ;;
    let peer :=
      {| wgtypes.PeerConfig_PublicKey := publicKey;
         wgtypes.Remove := true;
         wgtypes.PeerConfig_PresharedKey := None;
         wgtypes.PeerConfig_Endpoint := None;
         wgtypes.PeerConfig_PersistentKeepaliveInterval := None;
         wgtypes.PeerConfig_AllowedIPs := [] |} in
    err <- wg_ConfigureDevice (wg s) (deviceName s)
             {| wgtypes.Config_Peers := [peer] |} ;;
    match err with
    | Some err => throw (Errorf_w "could not configure WireGuard device: " err)
    | None => ok {| client.RemovePeerResponse_OK := true |}
    end.

(** The values the dispatcher writes as a result: a pointer to one of
    the five response structs. *)
Inductive reply : Type :=
| OfGetDeviceInfo (res : client.GetDeviceInfoResponse)
| OfListPeers (res : client.ListPeersResponse)
| OfGetPeer (res : client.GetPeerResponse)
| OfAddPeer (res : client.AddPeerResponse)
| OfRemovePeer (res : client.RemovePeerResponse).

(** [res, err = handler(..); if err != nil { res = ServerError(-32000,
    err.Error(), nil) }] *)
Definition handled {A : Type} (wrap : A -> reply) (r : A + error)
  : any reply :=
  match r with
  | inl res => Value (wrap res)
  | inr err => OfError (ErrRPC (ServerError (-32000) (error_Error err) None))
  end.

Section Dispatch.
Context `{Decoder}.
Context {W : Type} `{ResponseWriter reply W}.

(** [ServeJSONRPC]: the writer after [w.Write(res)], whose returned
    error the source drops. *)
Definition ServeJSONRPC (s : Server) (w : W) (r : Request) : M W :=
  res <-
    (if (Method r =? "GetDeviceInfo")%string then
       x <- GetDeviceInfo s (Some client.mkGetDeviceInfoRequest) ;;
       ret (handled OfGetDeviceInfo x)
     else if (Method r =? "ListPeers")%string then
       match Unmarshal_ListPeersRequest (Params r) with
       | inr err => ret (OfError (ErrRPC (ParseError (error_Error err) None)))
       | inl arg =>
           x <- ListPeers s (Some arg) ;;
           ret (handled OfListPeers x)
       end
     else if (Method r =? "GetPeer")%string then
       match Unmarshal_GetPeerRequest (Params r) with
       | inr err => ret (OfError (ErrRPC (ParseError (error_Error err) None)))
       | inl arg =>
           x <- GetPeer s (Some arg) ;;
           ret (handled OfGetPeer x)
       end
     else if (Method r =? "AddPeer")%string then
       match Unmarshal_AddPeerRequest (Params r) with
       | inr err => ret (OfError (ErrRPC (ParseError (error_Error err) None)))
       | inl arg =>
           x <- AddPeer s (Some arg) ;;
           ret (handled OfAddPeer x)
       end
     else if (Method r =? "RemovePeer")%string then
       match Unmarshal_RemovePeerRequest (Params r) with
       | inr err => ret (OfError (ErrRPC (ParseError (error_Error err) None)))
       | inl arg =>
           x <- RemovePeer s (Some arg) ;;
           ret (handled OfRemovePeer x)
       end
     else
       ret (OfError (ErrRPC (MethodNotFound "method not found" None)))) ;;
  ret (snd (writer_Write res w)).
End Dispatch.
End WithRuntime.
End server.

(** ** A runtime and a provider to run the server on

    A small instance of [Runtime], [Decoder] and [wgctrl.Client], in the
    place of a test double: base64 keys, IPv4 literals, durations in
    seconds, and an interface [wg0] held in memory. The theorems do not
    depend on it; it serves the concrete runs. *)
Module fake.
Import jsonrpc.

Definition alphabet : list ascii :=
  list_ascii_of_string
    "ABCDEFGHIJKLMNOPQRSTUVWXYZabcdefghijklmnopqrstuvwxyz0123456789+/".

Fixpoint index_of (c : ascii) (l : list ascii) : option N :=
  match l with
  | [] => None
  | x :: l' =>
      if Ascii.eqb c x then Some 0%N
      else option_map N.succ (index_of c l')
  end.

Definition sextet (c : ascii) : option N := index_of c alphabet.

Definition is_pad (c : ascii) : bool := Ascii.eqb c "="%char.

Definition octet (n : N) : byte :=
  match Byte.of_N (n mod 256) with
  | Some b => b
  | None => "000"%byte
  end.

(** Padded base64 over the standard alphabet, four characters at a
    time. *)
Fixpoint decode (l : list ascii) : option (list byte) :=
  match l with
  | [] => Some []
  | a :: b :: c :: d :: rest =>
      match sextet a, sextet b with
      | Some x, Some y =>
          let b1 := octet (x * 4 + y / 16) in
          if is_pad c then
            match d, rest with
            | "="%char, [] => Some [b1]
            | _, _ => None
            end
          else
            match sextet c with
            | Some z =>
                let b2 := octet (y * 16 + z / 4) in
                if is_pad d then
                  match rest with
                  | [] => Some [b1; b2]
                  | _ => None
                  end
                else
                  match sextet d with
                  | Some t =>
                      option_map (fun tl => b1 :: b2 :: octet (z * 64 + t) :: tl)
                                 (decode rest)
                  | None => None
                  end
            | None => None
            end
      | _, _ => None
      end
  | _ => None
  end.

Definition letter (n : N) : ascii := nth (N.to_nat (n mod 64)) alphabet "="%char.

Fixpoint encode (l : list byte) : list ascii :=
  match l with
  | [] => []
  | [a] =>
      let x := Byte.to_N a in
      [letter (x / 4); letter (x * 16); "="%char; "="%char]
  | [a; b] =>
      let x := Byte.to_N a in
      let y := Byte.to_N b in
      [letter (x / 4); letter (x * 16 + y / 16); letter (y * 4); "="%char]
  | a :: b :: c :: rest =>
      let x := Byte.to_N a in
      let y := Byte.to_N b in
      let z := Byte.to_N c in
      letter (x / 4) :: letter (x * 16 + y / 16) :: letter (y * 4 + z / 64)
        :: letter z :: encode rest
  end.

Definition ParseKey (s : string) : Key + error :=
  match decode (list_ascii_of_string s) with
  | None => inr (ErrText "wgtypes: failed to parse base64-encoded key")
  | Some b =>
      if (List.length b =? 32)%nat then inl b
      else inr (ErrText "wgtypes: incorrect key size")
  end.

Fixpoint digits (s : string) (acc : N) : option N :=
  match s with
  | EmptyString => Some acc
  | String c s' =>
      let n := N_of_ascii c in
      if ((48 <=? n) && (n <=? 57))%N then digits s' (acc * 10 + (n - 48))%N
      else None
  end.

Definition parse_uint (s : string) : option N :=
  match s with
  | EmptyString => None
  | _ => digits s 0%N
  end.

Fixpoint split (sep : ascii) (s : string) : list string :=
  match s with
  | EmptyString => [EmptyString]
  | String c s' =>
      if Ascii.eqb c sep then EmptyString :: split sep s'
      else
        match split sep s' with
        | hd :: tl => String c hd :: tl
        | [] => [String c EmptyString]
        end
  end.

Definition below (bound : N) (s : string) : bool :=
  match parse_uint s with
  | Some n => (n <=? bound)%N
  | None => false
  end.

Definition is_ipv4 (s : string) : bool :=
  match split "."%char s with
  | [a; b; c; d] => below 255 a && below 255 b && below 255 c && below 255 d
  | _ => false
  end.

Definition ParseCIDR (s : string) : string + error :=
  match split "/"%char s with
  | [ip; len] =>
      if is_ipv4 ip && below 32 len then inl s
      else inr (ErrText ("invalid CIDR address: " ++ s))
  | _ => inr (ErrText ("invalid CIDR address: " ++ s))
  end.

Definition ResolveUDPAddr (s : string) : string + error :=
  match split ":"%char s with
  | [ip; port] =>
      if is_ipv4 ip && below 65535 port then inl s
      else inr (ErrText ("address " ++ s ++ ": cannot resolve"))
  | _ => inr (ErrText ("address " ++ s ++ ": missing port in address"))
  end.

Definition ParseDuration (s : string) : Z + error :=
  match split "s"%char s with
  | [n; EmptyString] =>
      match parse_uint n with
      | Some k => inl (Z.of_N k * 1000000000)
      | None => inr (ErrText ("time: invalid duration " ++ s))
      end
  | _ => inr (ErrText ("time: invalid duration " ++ s))
  end.

Definition Quote (s : string) : string :=
  String (ascii_of_nat 34) (s ++ String (ascii_of_nat 34) EmptyString).

(** A peer of the interface held in memory. *)
Record entry : Type := mkEntry {
  entry_key : Key;
  entry_preshared : Key;
  entry_endpoint : option string;
  entry_keepalive : Z;
  entry_allowed : list string
}.

Definition runtime : Runtime :=
  {| World := list entry;
     net_UDPAddr := string;
     net_IPNet := string;
     time_Time := Z;
     wgtypes_ParseKey := ParseKey;
     Key_String := fun k => string_of_list_ascii (encode k);
     DeviceType_String := fun t => if t =? 1 then "Linux kernel" else "unknown";
     net_ResolveUDPAddr := fun s w => (ResolveUDPAddr s, w);
     UDPAddr_String := fun a => match a with Some s => s | None => "<nil>" end;
     net_ParseCIDR := ParseCIDR;
     IPNet_String := fun n => n;
     time_ParseDuration := ParseDuration;
     Duration_String := fun d => itoa (d / 1000000000) ++ "s";
     strconv_Quote := Quote |}.

Definition peer_of_entry (e : entry) : @wgtypes.Peer runtime :=
  {| wgtypes.Peer_PublicKey := entry_key e;
     wgtypes.Peer_PresharedKey := entry_preshared e;
     wgtypes.Peer_Endpoint := entry_endpoint e : option (@net_UDPAddr runtime);
     wgtypes.Peer_PersistentKeepaliveInterval := entry_keepalive e;
     wgtypes.LastHandshakeTime := 0 : @time_Time runtime;
     wgtypes.ReceiveBytes := 0;
     wgtypes.TransmitBytes := 0;
     wgtypes.Peer_AllowedIPs := entry_allowed e : list (@net_IPNet runtime);
     wgtypes.ProtocolVersion := 1 |}.

Definition or_else {A : Type} (o : option A) (d : A) : A :=
  match o with Some a => a | None => d end.

(** One [PeerConfig] applied to the table: removal by key, or update in
    place of the peer with that key, or a new peer at the end. *)
Definition configure (c : @wgtypes.PeerConfig runtime) (w : list entry)
  : list entry :=
  let same e := wgtypes.Key_eqb (entry_key e) (wgtypes.PeerConfig_PublicKey c) in
  if wgtypes.Remove c then filter (fun e => negb (same e)) w
  else
    let update e :=
      {| entry_key := entry_key e;
         entry_preshared :=
           or_else (wgtypes.PeerConfig_PresharedKey c) (entry_preshared e);
         entry_endpoint :=
           match wgtypes.PeerConfig_Endpoint c with
           | Some a => Some a
           | None => entry_endpoint e
           end;
         entry_keepalive :=
           or_else (wgtypes.PeerConfig_PersistentKeepaliveInterval c)
                   (entry_keepalive e);
         entry_allowed :=
           (entry_allowed e ++ wgtypes.PeerConfig_AllowedIPs c)%list |} in
    if existsb same w then map (fun e => if same e then update e else e) w
    else
      (w ++ [update {| entry_key := wgtypes.PeerConfig_PublicKey c;
                       entry_preshared := wgtypes.Key_zero;
                       entry_endpoint := None;
                       entry_keepalive := 0;
                       entry_allowed := [] |}])%list.

Definition wg0 : @wgctrl.Client runtime :=
  {| wgctrl.Device := fun name (w : @World runtime) =>
       if (name =? "wg0")%string then
         (inl {| wgtypes.Name := "wg0";
                 wgtypes.Type_ := 1;
                 wgtypes.PublicKey := wgtypes.Key_zero;
                 wgtypes.ListenPort := 51820;
                 wgtypes.FirewallMark := 0;
                 wgtypes.Peers := map peer_of_entry w |}, w)
       else (inr (ErrText "file does not exist"), w);
     wgctrl.ConfigureDevice := fun name cfg (w : @World runtime) =>
       if (name =? "wg0")%string then
         (None, fold_left (fun w c => configure c w) (wgtypes.Config_Peers cfg) w)
       else (Some (ErrText "file does not exist"), w) |}.

Definition svc : @server.Server runtime :=
  {| server.wg := wg0; server.deviceName := "wg0" |}.

(** A decoder for the few payloads of the runs below; any other payload
    is a syntax error. *)
Definition decoder : Decoder :=
  {| Unmarshal_ListPeersRequest := fun p =>
       if (p =? "{}")%string then inl {| client.Limit := 0; client.Offset := 0 |}
       else if (p =? "{limit:-1}")%string then
         inl {| client.Limit := -1; client.Offset := 0 |}
       else inr (ErrText "unexpected end of JSON input");
     Unmarshal_GetPeerRequest := fun p =>
       inr (ErrText "unexpected end of JSON input");
     Unmarshal_AddPeerRequest := fun p =>
       inr (ErrText "unexpected end of JSON input");
     Unmarshal_RemovePeerRequest := fun p =>
       inr (ErrText "unexpected end of JSON input") |}.

(** The key of the README's examples. *)
Definition key1 : string := "xoY2MZZ1UmbEakFBPyqryHwTaMi6ae4myP+vuILmJUY=".
Definition key2 : string := "AAAAAAAAAAAAAAAAAAAAAAAAAAAAAAAAAAAAAAAAAAE=".

Definition key_of (s : string) : Key :=
  match ParseKey s with
  | inl k => k
  | inr _ => []
  end.

Definition entry1 : entry :=
  {| entry_key := key_of key1;
     entry_preshared := wgtypes.Key_zero;
     entry_endpoint := Some "67.234.65.104:57436";
     entry_keepalive := 25000000000;
     entry_allowed := ["10.1.1.0/24"] |}.

Definition entry2 : entry :=
  {| entry_key := key_of key2;
     entry_preshared := key_of key1;
     entry_endpoint := None;
     entry_keepalive := 0;
     entry_allowed := [] |}.

(** Three requests as [HTTP] decodes them. *)
Definition list_request : Request :=
  mkRequest "2.0" "ListPeers" "{limit:-1}" "7" "127.0.0.1:40000".

Definition info_request : Request :=
  mkRequest "2.0" "GetDeviceInfo" "{}" "1" "127.0.0.1:40000".

Definition info_request_bad_params : Request :=
  mkRequest "2.0" "GetDeviceInfo" "{limit:" "1" "127.0.0.1:40000".

(** The state before a request: the peers of [wg0], and no call made. *)
Definition start (w : list entry) : @server.State runtime :=
  {| server.world := w : @World runtime; server.calls := [] |}.
End fake.

(** ** The transport: packages [net/http] and [strings], the HTTP adapter
    of [jsonrpc], the middleware of [server] and the set-up of [main] *)

(** What the transport uses besides [Runtime]: [strings.TrimSpace], the
    decoder of the envelope ([json.NewDecoder(r.Body).Decode(req)], which
    fills the exported fields), the clock, the logger and the environment
    of the process. The clock and the logger act on the world. *)
Class Host `{Runtime} : Type := {
  strings_TrimSpace : string -> string;
  json_Decode : string -> jsonrpc.Request + jsonrpc.error;
  time_Now : World -> time_Time * World;
  time_Sub : time_Time -> time_Time -> Z;
  log_Printf : string -> World -> World;
  os_Getenv : string -> string
}.

(** Package [strings]: the two functions whose result is a matter of
    bytes alone. *)
Module strings.

(** [strings.TrimPrefix(s, prefix)] *)
Definition TrimPrefix (s prefix : string) : string :=
  if String.prefix prefix s
  then String.substring (String.length prefix)
         (String.length s - String.length prefix) s
  else s.

(** [strings.Split(s, sep)] for a separator [sep] of one byte: the
    substrings between the separators, one more than there are
    separators. *)
Fixpoint Split (s : string) (sep : ascii) : list string :=
  match s with
  | EmptyString => [EmptyString]
  | String c s' =>
      if Ascii.eqb c sep then EmptyString :: Split s' sep
      else
        match Split s' sep with
        | hd :: tl => String c hd :: tl
        | [] => [String c EmptyString]
        end
  end.
End strings.

(** Package [net/http], as far as the program uses it. *)
Module http.

(** [http.Header] is [map[string][]string]: a list of bindings, of which
    the first for a key counts. *)
Definition Header : Type := list (string * list string).

(** [v, ok := h[key]] *)
Fixpoint lookup (h : Header) (key : string) : option (list string) :=
  match h with
  | [] => None
  | (k, v) :: h' => if (k =? key)%string then Some v else lookup h' key
  end.

(** [h.Get(key)] for a key in canonical form, as the two keys are that
    the program asks for: the first value, or the empty string. *)
Definition Header_Get (h : Header) (key : string) : string :=
  match lookup h key with
  | Some (v :: _) => v
  | _ => ""
  end.

(** The fields of [http.Request] the program reads. *)
Record Request : Type := mkRequest {
  Request_Method : string;
  Request_Header : Header;
  Body : string;
  Request_RemoteAddr : string
}.

(** What a handler of the program leaves on its [http.ResponseWriter]:
    [http.Error(w, error, code)], or the header Content-Type set to
    [contentType] followed by [json.NewEncoder(w).Encode(v)]. *)
Inductive Written (B : Type) : Type :=
| Error (error : string) (code : Z)
| Encoded (contentType : string) (v : B).

Arguments Error {B} error code.
Arguments Encoded {B} contentType v.

Definition MethodPost : string := "POST".
Definition StatusBadRequest : Z := 400.
Definition StatusForbidden : Z := 403.
Definition StatusMethodNotAllowed : Z := 405.
End http.

(** The rest of package [server/jsonrpc] and of package [server], and the
    part of [main] that builds the handler. *)
Module transport.
Import jsonrpc server.
Local Open Scope go_scope.

Section WithHost.
Context `{Host}.

(** An [http.Handler] that writes values of type [B]. *)
Definition HTTPHandler (B : Type) : Type := http.Request -> M (http.Written B).

(** A [jsonrpc.Handler] on the writer [W]. *)
Definition Handler (W : Type) : Type := W -> jsonrpc.Request -> M W.

Definition ContentType : string := "application/json".

(** [jsonrpc.HTTP] *)
Definition HTTP {T : Type} (hf : Handler (response T))
  : HTTPHandler (response T) :=
  fun r =>
    if negb (http.Request_Method r =? http.MethodPost)%string then
      ret (http.Error "method not allowed" http.StatusMethodNotAllowed)
    else
      let hdr := http.Header_Get (http.Request_Header r) "Content-Type" in
      if negb (String.prefix ContentType hdr) then
        ret (http.Error ("unknown content type " ++ strconv_Quote hdr)
                        http.StatusBadRequest)
      else
        match json_Decode (http.Body r) with
        | inr err =>
            ret (http.Error ("invalid request: " ++ error_Error err)
                            http.StatusBadRequest)
        | inl req =>
            let req :=
              {| Request_Version := Request_Version req;
                 Method := Method req;
                 Params := Params req;
                 Request_ID := Request_ID req;
                 raddr := http.Request_RemoteAddr r |} in
            res <- hf (HTTP_response req) req ;;
            ret (http.Encoded ContentType res)
        end.

(** [headersExist] *)
Fixpoint headersExist (h : http.Header) (keys : list string) : bool :=
  match keys with
  | [] => false
  | key :: rest =>
      match http.lookup h key with
      | Some _ => true
      | None => headersExist h rest
      end
  end.

(** [PreventReferer] *)
Definition PreventReferer {B : Type} (next : HTTPHandler B) : HTTPHandler B :=
  fun r =>
    if headersExist (http.Request_Header r) ["Referer"; "Origin"] then
      ret (http.Error "forbidden" http.StatusForbidden)
    else next r.

(** [time.Now()] and [log.Printf] as actions: neither calls the
    provider. *)
Definition Now : M time_Time :=
  fun st =>
    let (t, w) := time_Now (world st) in
    (t, {| world := w; calls := calls st |}).

Definition Printf (line : string) : M unit :=
  fun st => (tt, {| world := log_Printf line (world st); calls := calls st |}).

(** [Logger] *)
Definition Logger {W : Type} (next : Handler W) : Handler W :=
  fun w r =>
    t1 <- Now ;;
    w <- next w r ;;
    t2 <- Now ;;
    _ <- Printf ("info: request: method=" ++ strconv_Quote (Method r)
                 ++ " remote_addr=" ++ RemoteAddr r
                 ++ " duration=" ++ Duration_String (time_Sub t2 t1)
                 ++ String (ascii_of_nat 10) EmptyString) ;;
    ret w.

(** [stringInSlice] *)
Fixpoint stringInSlice (s : string) (vv : list string) : bool :=
  match vv with
  | [] => false
  | v :: rest => if (v =? s)%string then true else stringInSlice s rest
  end.

(** [AuthTokens] *)
Definition AuthTokens {B : Type} (tokens : list string) (next : HTTPHandler B)
  : HTTPHandler B :=
  fun r =>
    let token :=
      strings_TrimSpace
        (strings.TrimPrefix
           (http.Header_Get (http.Request_Header r) "Authorization") "Token ") in
    if negb (stringInSlice token tokens) then
      ret (http.Error "forbidden" http.StatusForbidden)
    else next r.

(** [envArray] *)
Definition envArray (name : string) : list string :=
  let env := os_Getenv name in
  if (env =? "")%string then []
  else map strings_TrimSpace (strings.Split env ","%char).

(** The handler that [main] builds for the server [svc], from the tokens
    of the flag [--token]: the lines of [main] from [jsonrpc.HTTP] to
    [server.PreventReferer]. *)
Definition main_handler {T : Type} (authTokens : list string)
  (svc : Handler (response T)) : HTTPHandler (response T) :=
  let handler := HTTP (Logger svc) in
  let authTokens :=
    let tokens := envArray "WGAPI_TOKENS" in
    if (0 <? List.length tokens)%nat then (authTokens ++ tokens)%list
    else authTokens in
  let handler :=
    if (0 <? List.length authTokens)%nat then AuthTokens authTokens handler
    else handler in
  PreventReferer handler.
End WithHost.
End transport.

(** A host to run the transport on: trimming of the ASCII blanks, a
    decoder for three bodies, a clock that stands still, a logger that
    leaves the world alone, and an environment with the one variable
    [WGAPI_TOKENS]. *)
Module fake_host.
Import jsonrpc.

Definition is_space (c : ascii) : bool :=
  existsb (Ascii.eqb c)
    [" "%char; ascii_of_nat 9; ascii_of_nat 10; ascii_of_nat 13].

Fixpoint trim_left (l : list ascii) : list ascii :=
  match l with
  | [] => []
  | c :: l' => if is_space c then trim_left l' else l
  end.

Definition TrimSpace (s : string) : string :=
  string_of_list_ascii
    (rev (trim_left (rev (trim_left (list_ascii_of_string s))))).

Definition Decode (body : string) : Request + error :=
  if (body =? "{method:GetDeviceInfo,id:1}")%string then
    inl (mkRequest "2.0" "GetDeviceInfo" "" "1" "")
  else if (body =? "{method:ListPeers,params:{limit:-1},id:7}")%string then
    inl (mkRequest "2.0" "ListPeers" "{limit:-1}" "7" "")
  else if (body =? "{method:DeleteEverything,id:9}")%string then
    inl (mkRequest "2.0" "DeleteEverything" "" "9" "")
  else inr (ErrText "unexpected end of JSON input").

(** The host whose environment binds [WGAPI_TOKENS] to [tokens]. *)
Definition host (tokens : string) : @Host fake.runtime :=
  {| strings_TrimSpace := TrimSpace;
     json_Decode := Decode;
     time_Now := fun w : @World fake.runtime => (0 : @time_Time fake.runtime, w);
     time_Sub := fun a b : @time_Time fake.runtime => a - b;
     log_Printf := fun _ (w : @World fake.runtime) => w;
     os_Getenv := fun name =>
       if (name =? "WGAPI_TOKENS")%string then tokens else "" |}.

(** A POST of application/json from a local client. *)
Definition post (headers : http.Header) (body : string) : http.Request :=
  {| http.Request_Method := "POST";
     http.Request_Header :=
       ("Content-Type", ["application/json; charset=utf-8"]) :: headers;
     http.Body := body;
     http.Request_RemoteAddr := "127.0.0.1:40000" |}.

(** A server for an interface that does not exist. *)
Definition svc_missing : @server.Server fake.runtime :=
  {| server.wg := fake.wg0; server.deviceName := "wg9" |}.

(** The dispatcher of [fake.svc] on the response of the adapter. *)
Definition dispatcher
  : @transport.Handler fake.runtime (response (@server.reply fake.runtime)) :=
  @server.ServeJSONRPC fake.runtime fake.decoder _
    (response_ResponseWriter _) fake.svc.

(** The requests of the runs. *)
Definition full_request : client.AddPeerRequest :=
  client.mkAddPeerRequest fake.key1 fake.key2 "1.2.3.4:51820" "25s"
    ["10.1.1.0/24"; "10.2.0.0/16"] false.
End fake_host.

(** * The specification, against the embedding *)

Import jsonrpc server.
Local Open Scope go_scope.

(** ** Vocabulary of the statements *)

(** The codes reserved for server errors. *)
Definition reserved (c : Z) : Prop := -32099 <= c <= -32000.

(** A well-formed key on the wire: 44 bytes that [wgtypes.ParseKey]
    accepts, that is, the base64 text of 32 bytes. *)
Definition wellformed_key `{Runtime} (s : string) : Prop :=
  String.length s = 44%nat /\ exists k : Key, wgtypes_ParseKey s = inl k.

(** [msg] contains [needle]. *)
Definition mentions (needle msg : string) : bool :=
  match String.index 0 needle msg with
  | Some _ => true
  | None => false
  end.

(** An entry of [allowed_ips] that [net.ParseCIDR] accepts. *)
Definition parses `{Runtime} (entry : string) : Prop :=
  exists n : net_IPNet, net_ParseCIDR entry = inl n.

(** The text [validateAddPeerRequest] and [AddPeer] give for an entry of
    [allowed_ips] that [net.ParseCIDR] refuses with [err]. *)
Definition range_message `{Runtime} (entry : string) (err : error) : string :=
  "range " ++ strconv_Quote entry ++ " is not valid: " ++ error_Error err.

(** [req] without its [allowed_ips]. *)
Definition without_allowed_ips (req : client.AddPeerRequest)
  : client.AddPeerRequest :=
  {| client.AddPeerRequest_PublicKey := client.AddPeerRequest_PublicKey req;
     client.PresharedKey := client.PresharedKey req;
     client.AddPeerRequest_Endpoint := client.AddPeerRequest_Endpoint req;
     client.AddPeerRequest_PersistentKeepAlive :=
       client.AddPeerRequest_PersistentKeepAlive req;
     client.AddPeerRequest_AllowedIPs := [];
     client.AddPeerRequest_ValidateOnly := client.AddPeerRequest_ValidateOnly req |}.

(** The handler of the method of [r], called as the dispatcher calls it in
    state [st], returns the error [err] and leaves the state [st']. *)
Inductive handler_fails `{Runtime} `{Decoder} (s : Server) (r : Request)
  (st : State) (err : error) (st' : State) : Prop :=
| fails_GetDeviceInfo :
    Method r = "GetDeviceInfo" ->
    GetDeviceInfo s (Some client.mkGetDeviceInfoRequest) st = (inr err, st') ->
    handler_fails s r st err st'
| fails_ListPeers (arg : client.ListPeersRequest) :
    Method r = "ListPeers" ->
    Unmarshal_ListPeersRequest (Params r) = inl arg ->
    ListPeers s (Some arg) st = (inr err, st') ->
    handler_fails s r st err st'
| fails_GetPeer (arg : client.GetPeerRequest) :
    Method r = "GetPeer" ->
    Unmarshal_GetPeerRequest (Params r) = inl arg ->
    GetPeer s (Some arg) st = (inr err, st') ->
    handler_fails s r st err st'
| fails_AddPeer (arg : client.AddPeerRequest) :
    Method r = "AddPeer" ->
    Unmarshal_AddPeerRequest (Params r) = inl arg ->
    AddPeer s (Some arg) st = (inr err, st') ->
    handler_fails s r st err st'
| fails_RemovePeer (arg : client.RemovePeerRequest) :
    Method r = "RemovePeer" ->
    Unmarshal_RemovePeerRequest (Params r) = inl arg ->
    RemovePeer s (Some arg) st = (inr err, st') ->
    handler_fails s r st err st'.

(** The state after one call of [wg.Device] that left the world [w]. *)
Definition after_Device `{Runtime} (s : Server) (st : State) (w : World)
  : State :=
  {| world := w; calls := (calls st ++ [CallDevice (deviceName s)])%list |}.

(** ** Vocabulary of the further properties *)

(** The method names the dispatcher knows. *)
Definition registered (method : string) : bool :=
  existsb (String.eqb method)
    ["GetDeviceInfo"; "ListPeers"; "GetPeer"; "AddPeer"; "RemovePeer"].

(** The method of [r] takes parameters, and decoding them fails with
    [err]. *)
Inductive decode_fails `{Decoder} (r : Request) (err : error) : Prop :=
| undecodable_ListPeers :
    Method r = "ListPeers" ->
    Unmarshal_ListPeersRequest (Params r) = inr err ->
    decode_fails r err
| undecodable_GetPeer :
    Method r = "GetPeer" ->
    Unmarshal_GetPeerRequest (Params r) = inr err ->
    decode_fails r err
| undecodable_AddPeer :
    Method r = "AddPeer" ->
    Unmarshal_AddPeerRequest (Params r) = inr err ->
    decode_fails r err
| undecodable_RemovePeer :
    Method r = "RemovePeer" ->
    Unmarshal_RemovePeerRequest (Params r) = inr err ->
    decode_fails r err.

(** The handler of the method of [r], called as the dispatcher calls it in
    state [st], returns the response [res] and leaves the state [st']. *)
Inductive handler_returns `{Runtime} `{Decoder} (s : Server) (r : Request)
  (st : State) (res : reply) (st' : State) : Prop :=
| returns_GetDeviceInfo (x : client.GetDeviceInfoResponse) :
    Method r = "GetDeviceInfo" ->
    GetDeviceInfo s (Some client.mkGetDeviceInfoRequest) st = (inl x, st') ->
    res = OfGetDeviceInfo x ->
    handler_returns s r st res st'
| returns_ListPeers (arg : client.ListPeersRequest) (x : client.ListPeersResponse) :
    Method r = "ListPeers" ->
    Unmarshal_ListPeersRequest (Params r) = inl arg ->
    ListPeers s (Some arg) st = (inl x, st') ->
    res = OfListPeers x ->
    handler_returns s r st res st'
| returns_GetPeer (arg : client.GetPeerRequest) (x : client.GetPeerResponse) :
    Method r = "GetPeer" ->
    Unmarshal_GetPeerRequest (Params r) = inl arg ->
    GetPeer s (Some arg) st = (inl x, st') ->
    res = OfGetPeer x ->
    handler_returns s r st res st'
| returns_AddPeer (arg : client.AddPeerRequest) (x : client.AddPeerResponse) :
    Method r = "AddPeer" ->
    Unmarshal_AddPeerRequest (Params r) = inl arg ->
    AddPeer s (Some arg) st = (inl x, st') ->
    res = OfAddPeer x ->
    handler_returns s r st res st'
| returns_RemovePeer (arg : client.RemovePeerRequest) (x : client.RemovePeerResponse) :
    Method r = "RemovePeer" ->
    Unmarshal_RemovePeerRequest (Params r) = inl arg ->
    RemovePeer s (Some arg) st = (inl x, st') ->
    res = OfRemovePeer x ->
    handler_returns s r st res st'.

(** What the dispatcher hands to [Write]: a response struct, or an error
    of one of the three codes it builds, without data. *)
Definition dispatched `{Runtime} (x : any reply) : Prop :=
  (exists v, x = Value v) \/
  (exists e, x = OfError (ErrRPC e) /\ Data e = None /\
             (Code e = -32000 \/ Code e = -32700 \/ Code e = -32601)).

(** The error a handler returns when the provider refuses a query, and
    when it refuses a configuration. *)
Definition device_error (err : error) : error :=
  Errorf_w "could not get WireGuard device: " err.

Definition configure_error (err : error) : error :=
  Errorf_w "could not configure WireGuard device: " err.

(** An InvalidParams error. *)
Definition is_InvalidParams (err : error) : Prop :=
  exists e, err = ErrRPC e /\ Code e = -32602.

(** The outcome of [wg.ConfigureDevice] on the single peer [peer], as
    [AddPeer] and [RemovePeer] return it. *)
Definition configured `{Runtime} (s : Server) (peer : wgtypes.PeerConfig)
  (st : State) : (bool + error) * State :=
  let (r, st') :=
    wg_ConfigureDevice (wg s) (deviceName s)
      {| wgtypes.Config_Peers := [peer] |} st in
  (match r with
   | Some err => inr (configure_error err)
   | None => inl true
   end, st').

(** The peer [RemovePeer] submits for the key [k]. *)
Definition removal `{Runtime} (k : Key) : wgtypes.PeerConfig :=
  {| wgtypes.PeerConfig_PublicKey := k;
     wgtypes.Remove := true;
     wgtypes.PeerConfig_PresharedKey := None;
     wgtypes.PeerConfig_Endpoint := None;
     wgtypes.PeerConfig_PersistentKeepaliveInterval := None;
     wgtypes.PeerConfig_AllowedIPs := [] |}.

(** A field of an [AddPeer] request that is absent when empty and
    otherwise parsed by [parse]. *)
Definition optional {A : Type} (parse : string -> A + error) (field : string)
  : option A :=
  if (field =? "")%string then None
  else match parse field with
       | inl a => Some a
       | inr _ => None
       end.

(** The entries of [allowed_ips] that parse, in their order. *)
Definition parsed_ranges `{Runtime} (l : list string) : list net_IPNet :=
  flat_map (fun entry => match net_ParseCIDR entry with
                         | inl n => [n]
                         | inr _ => []
                         end) l.

(** The peer [AddPeer] submits for [req], given the key and the endpoint
    it resolved. *)
Definition submitted_peer `{Runtime} (req : client.AddPeerRequest) (k : Key)
  (endpoint : option net_UDPAddr) : wgtypes.PeerConfig :=
  {| wgtypes.PeerConfig_PublicKey := k;
     wgtypes.Remove := false;
     wgtypes.PeerConfig_PresharedKey :=
       optional wgtypes_ParseKey (client.PresharedKey req);
     wgtypes.PeerConfig_Endpoint := endpoint;
     wgtypes.PeerConfig_PersistentKeepaliveInterval :=
       optional time_ParseDuration (client.AddPeerRequest_PersistentKeepAlive req);
     wgtypes.PeerConfig_AllowedIPs :=
       parsed_ranges (client.AddPeerRequest_AllowedIPs req) |}.

(** The endpoint of a request, resolved in state [st]: absent when the
    field is empty, and otherwise what [net.ResolveUDPAddr] returns. *)
Definition resolved `{Runtime} (field : string) (st : State)
  : (option net_UDPAddr + error) * State :=
  if (field =? "")%string then (inl None, st)
  else
    let (r, w) := net_ResolveUDPAddr field (world st) in
    (match r with
     | inl a => inl (Some a)
     | inr err => inr err
     end, {| world := w; calls := calls st |}).

(** The envelope [req] that [HTTP] decoded from the request [r], with
    the address of the client. *)
Definition received (req : Request) (r : http.Request) : Request :=
  {| Request_Version := Request_Version req;
     Method := Method req;
     Params := Params req;
     Request_ID := Request_ID req;
     raddr := http.Request_RemoteAddr r |}.

(** The token [AuthTokens] reads from a request. *)
Definition presented_token `{Host} (r : http.Request) : string :=
  strings_TrimSpace
    (strings.TrimPrefix
       (http.Header_Get (http.Request_Header r) "Authorization") "Token ").

(** The request carries neither of the headers of a browser. *)
Definition no_browser_header (r : http.Request) : Prop :=
  http.lookup (http.Request_Header r) "Referer" = None /\
  http.lookup (http.Request_Header r) "Origin" = None.

(** The number of commas of a string. *)
Definition commas (s : string) : nat :=
  count_occ ascii_dec (list_ascii_of_string s) ","%char.

(** A response holds exactly one of a result and an error. *)
Definition one_of_result_and_error {T : Type} (w : response T) : Prop :=
  (exists v, Result w = Value v /\ Error_ w = None) \/
  (exists e, Result w = Nil /\ Error_ w = Some e).


(** ** Proof steps *)

(** Unfolding of the early-return plumbing. *)
Ltac run :=
  unfold try, check, deref, ResolveUDPAddr, wg_ConfigureDevice, wg_Device,
    bindE, bind, throw, ok, ret in *;
  simpl in *.

(** A scrutinee that is not itself a test. *)
Ltac plain x :=
  lazymatch x with
  | (let (_, _) := _ in _) => fail
  | (if _ then _ else _) => fail
  | (match _ with inl _ => _ | inr _ => _ end) => fail
  | (match _ with Some _ => _ | None => _ end) => fail
  | _ => idtac
  end.

(** Case analysis on the next test of the goal. *)
Ltac branch :=
  match goal with
  | |- context [if ?b then _ else _] => plain b; destruct b eqn:?
  | |- context [match ?x with inl _ => _ | inr _ => _ end] =>
      plain x; destruct x eqn:?
  | |- context [match ?x with Some _ => _ | None => _ end] =>
      plain x; destruct x eqn:?
  | |- context [let (_, _) := ?p in _] => plain p; destruct p eqn:?
  end;
  simpl in *.

(** Case analysis on the next test of the hypothesis [H], an equation
    between outcomes. *)
Ltac branch_in H :=
  match type of H with
  | context [if ?b then _ else _] => plain b; destruct b eqn:?
  | context [match ?x with inl _ => _ | inr _ => _ end] =>
      plain x; destruct x eqn:?
  | context [match ?x with Some _ => _ | None => _ end] =>
      plain x; destruct x eqn:?
  | context [let (_, _) := ?p in _] => plain p; destruct p eqn:?
  end;
  simpl in H; try discriminate H.

(** Evaluation of the left-hand side of the goal. *)
Ltac evaluate :=
  match goal with
  | |- ?lhs = _ =>
      let v := eval vm_compute in lhs in
      change lhs with v
  end.

(** ** The error taxonomy and the response writer *)

(** C5, as the code has it: for every code [c], inside the range
    -32099..-32000 or outside it, [ServerError] yields an error that
    carries exactly the code [c], the message and the data it was given;
    it makes no range check. *)
Theorem ServerError_carries_its_arguments :
  forall (c : Z) (message : string) (data : option string),
    Code (ServerError c message data) = c /\
    Message (ServerError c message data) = message /\
    Data (ServerError c message data) = data.
Proof. intros c message data. repeat split. Qed.

(** C5, as the specification states it, fails: the code 0 is outside the
    reserved range, and the constructor returns an error with code 0. *)
Lemma ServerError_accepts_code_outside_range :
  ~ reserved 0 /\
  ServerError 0 "device missing" None =
    {| Code := 0; Message := "device missing"; Data := None |}.
Proof. split; [unfold reserved; lia | reflexivity]. Qed.

(** C4, on the code: [response.Write] on a response whose result is set
    and whose error is not returns [nil] and replaces the result; on a
    response whose error is set and whose result is not it returns [nil]
    and sets the result beside the error. It refuses only when both are
    set, with a plain error value, leaving the response as it was. *)
Theorem response_Write_is_not_write_once :
  forall (T : Type) (version id : string) (v1 v2 : T) (e : Error),
    response_Write (Value v2) (mkResponse version (Value v1) None id) =
      (None, mkResponse version (Value v2) None id) /\
    response_Write (Value v2) (mkResponse version Nil (Some e) id) =
      (None, mkResponse version (Value v2) (Some e) id) /\
    response_Write (Value v2) (mkResponse version (Value v1) (Some e) id) =
      (Some (ErrText "response already written"),
       mkResponse version (Value v1) (Some e) id).
Proof. intros. repeat split. Qed.

(** X16: what the guard of [response.Write] tests: it refuses exactly
    when the result and the error are both set. *)
Lemma response_Write_guard (T : Type) (res : any T) (r : response T) :
  fst (response_Write res r) <> None <->
  Result r <> Nil /\ Error_ r <> None.
Proof.
  unfold response_Write.
  destruct (Result r) as [| err | v], (Error_ r) as [e |]; simpl;
    try (destruct res as [| [e' | msg] | v']; simpl);
    (split; [intros Hl | intros [Hr He]]);
    try congruence; try discriminate; split; discriminate.
Qed.

(** ** The handlers *)

Section Handlers.
Context `{Runtime}.

Lemma fold_left_append_map {A B : Type} (f : A -> B) (l : list A) :
  forall acc : list B,
    fold_left (fun acc x => (acc ++ [f x])%list) l acc = (acc ++ map f l)%list.
Proof.
  induction l as [| x l IH]; intros acc; simpl.
  - now rewrite app_nil_r.
  - rewrite IH, <- app_assoc. reflexivity.
Qed.

(** The validators of the pure requests refuse the nil pointer, so no
    handler reaches [deref] on it. *)
Lemma validators_reject_nil :
  validateListPeersRequest None <> None /\
  validateGetPeerRequest None <> None /\
  validateRemovePeerRequest None <> None /\
  forall st, validateAddPeerRequest None st =
               (inr (invalid "request body required"), st).
Proof. repeat split; discriminate. Qed.

(** On the nil pointer every handler that takes a request returns the
    error of its validator, in the state it started in. *)
Lemma handlers_on_nil (s : Server) (st : State) :
  ListPeers s None st = (inr (invalid "request body required"), st) /\
  GetPeer s None st = (inr (invalid "request body required"), st) /\
  AddPeer s None st = (inr (invalid "request body required"), st) /\
  RemovePeer s None st = (inr (invalid "request body required"), st).
Proof. repeat split. Qed.

(** C6: a [ListPeers] request with a negative [limit] or [offset] fails
    with InvalidParams in the state it started in, so without any call
    to the provider; a request whose fields are zero (absent) or
    positive passes validation. *)
Theorem ListPeers_negative_pagination :
  forall (s : Server) (req : client.ListPeersRequest) (st : State),
    (client.Limit req < 0 \/ client.Offset req < 0 ->
     exists e : Error,
       ListPeers s (Some req) st = (inr (ErrRPC e), st) /\
       Code e = -32602) /\
    (0 <= client.Limit req /\ 0 <= client.Offset req ->
     validateListPeersRequest (Some req) = None).
Proof.
  intros s req st. split.
  - intros Hneg.
    unfold ListPeers, validateListPeersRequest, bindE, bind, check, throw, ret.
    destruct (Z.ltb_spec (client.Limit req) 0) as [Hl | Hl].
    + eexists; split; reflexivity.
    + destruct (Z.ltb_spec (client.Offset req) 0) as [Ho | Ho].
      * eexists; split; reflexivity.
      * lia.
  - intros [Hl Ho]. unfold validateListPeersRequest.
    destruct (Z.ltb_spec (client.Limit req) 0); [lia |].
    destruct (Z.ltb_spec (client.Offset req) 0); [lia | reflexivity].
Qed.

(** C8: when the request passes validation and the provider returns a
    device, [ListPeers] returns the translation of every peer of the
    device, in the provider's order, after one call to the provider;
    [limit] and [offset] do not occur in the result. *)
Theorem ListPeers_returns_every_peer :
  forall (s : Server) (req : client.ListPeersRequest) (st : State)
         (dev : wgtypes.Device) (w : World),
    validateListPeersRequest (Some req) = None ->
    wgctrl.Device (wg s) (deviceName s) (world st) = (inl dev, w) ->
    ListPeers s (Some req) st =
      (inl {| client.Peers := map peer2rpc (wgtypes.Peers dev) |},
       after_Device s st w).
Proof.
  intros s req st dev w Hval Hdev.
  unfold ListPeers, bindE, bind, wg_Device.
  rewrite Hval. simpl. rewrite Hdev. simpl.
  rewrite fold_left_append_map. reflexivity.
Qed.

Lemma Key_eqb_eq (a b : Key) : wgtypes.Key_eqb a b = true <-> a = b.
Proof.
  unfold wgtypes.Key_eqb.
  destruct (list_eq_dec byte_eq_dec a b); split; congruence.
Qed.

Lemma find_first {A : Type} (f : A -> bool) (l : list A) (q : A) :
  find f l = Some q ->
  exists before rest,
    l = (before ++ q :: rest)%list /\
    (forall x, In x before -> f x = false) /\
    f q = true.
Proof.
  induction l as [| x l IH]; simpl; [discriminate |].
  destruct (f x) eqn:Hx.
  - intros [= ->]. exists [], l. repeat split; [intros y [] | exact Hx].
  - intros Hfind. destruct (IH Hfind) as (before & rest & -> & Hbefore & Hq).
    exists (x :: before), rest. repeat split; [| exact Hq].
    intros y [<- | Hy]; [exact Hx | now apply Hbefore].
Qed.

(** The three checks on a public key, as the validators inline them. *)
Lemma key_checks_pass (s : string) :
  wellformed_key s ->
  (s =? "")%string = false /\
  (String.length s =? 44)%nat = true /\
  exists k, wgtypes_ParseKey s = inl k.
Proof.
  intros [Hlen Hparse]. repeat split.
  - apply String.eqb_neq. intros ->. discriminate.
  - now apply Nat.eqb_eq.
  - exact Hparse.
Qed.

Lemma validateGetPeerRequest_passes (req : client.GetPeerRequest) :
  validateGetPeerRequest (Some req) = None <->
  wellformed_key (client.GetPeerRequest_PublicKey req).
Proof.
  unfold validateGetPeerRequest, wellformed_key.
  destruct (String.eqb_spec (client.GetPeerRequest_PublicKey req) "") as [He | He].
  - split; [discriminate |]. rewrite He. intros [Hlen _]. discriminate.
  - destruct (Nat.eqb_spec (String.length (client.GetPeerRequest_PublicKey req)) 44)
      as [Hl | Hl]; simpl.
    + destruct (wgtypes_ParseKey (client.GetPeerRequest_PublicKey req)) as [k | err].
      * split; [intros _; split; [exact Hl | now exists k] | reflexivity].
      * split; [discriminate | intros [_ [k Hk]]; discriminate].
    + split; [discriminate | intros [Hlen _]; contradiction].
Qed.

Lemma validateGetPeerRequest_fails (req : option client.GetPeerRequest) :
  validateGetPeerRequest req = None \/
  exists e, validateGetPeerRequest req = Some (ErrRPC e) /\ Code e = -32602.
Proof.
  unfold validateGetPeerRequest. destruct req as [req |].
  - destruct (client.GetPeerRequest_PublicKey req =? "")%string;
      [right; eexists; split; reflexivity |].
    destruct (String.length (client.GetPeerRequest_PublicKey req) =? 44)%nat; simpl;
      [| right; eexists; split; reflexivity].
    destruct (wgtypes_ParseKey (client.GetPeerRequest_PublicKey req));
      [now left | right; eexists; split; reflexivity].
  - right; eexists; split; reflexivity.
Qed.

(** C2: for a request that carries a well-formed public key, when the
    provider returns a device, [GetPeer] succeeds. When no peer of the
    device has that key the peer of the response is absent; when some
    peer has it, the response holds the translation of the first peer,
    in the provider's order, whose key is equal. *)
Theorem GetPeer_by_public_key :
  forall (s : Server) (req : client.GetPeerRequest) (st : State)
         (dev : wgtypes.Device) (w : World) (k : Key),
    String.length (client.GetPeerRequest_PublicKey req) = 44%nat ->
    wgtypes_ParseKey (client.GetPeerRequest_PublicKey req) = inl k ->
    wgctrl.Device (wg s) (deviceName s) (world st) = (inl dev, w) ->
    ((forall p, In p (wgtypes.Peers dev) -> wgtypes.Peer_PublicKey p <> k) ->
     GetPeer s (Some req) st =
       (inl {| client.GetPeerResponse_Peer := None |}, after_Device s st w)) /\
    (forall p, In p (wgtypes.Peers dev) -> wgtypes.Peer_PublicKey p = k ->
     exists before q rest,
       wgtypes.Peers dev = (before ++ q :: rest)%list /\
       (forall x, In x before -> wgtypes.Peer_PublicKey x <> k) /\
       wgtypes.Peer_PublicKey q = k /\
       GetPeer s (Some req) st =
         (inl {| client.GetPeerResponse_Peer := Some (peer2rpc q) |},
          after_Device s st w)).
Proof.
  intros s req st dev w k Hlen Hkey Hdev.
  assert (Hval : validateGetPeerRequest (Some req) = None).
  { apply validateGetPeerRequest_passes. split; [exact Hlen | now exists k]. }
  assert (Hrun : GetPeer s (Some req) st =
            (inl {| client.GetPeerResponse_Peer :=
                      option_map peer2rpc
                        (find (fun peer => wgtypes.Key_eqb (wgtypes.Peer_PublicKey peer) k)
                              (wgtypes.Peers dev)) |},
             after_Device s st w)).
  { unfold GetPeer, bindE, bind, wg_Device. rewrite Hval. simpl.
    rewrite Hdev. simpl. rewrite Hkey. simpl.
    destruct (find _ (wgtypes.Peers dev)); reflexivity. }
  split.
  - intros Hnone. rewrite Hrun.
    destruct (find _ (wgtypes.Peers dev)) as [q |] eqn:Hfind; [| reflexivity].
    apply find_some in Hfind. destruct Hfind as [Hin Heq].
    apply Key_eqb_eq in Heq. now apply Hnone in Hin.
  - intros p Hin Hp. rewrite Hrun.
    destruct (find _ (wgtypes.Peers dev)) as [q |] eqn:Hfind.
    + destruct (find_first _ _ _ Hfind) as (before & rest & Hsplit & Hbefore & Hq).
      exists before, q, rest. repeat split.
      * exact Hsplit.
      * intros x Hx Hxk. apply Hbefore in Hx.
        apply Key_eqb_eq in Hxk. congruence.
      * now apply Key_eqb_eq.
    + apply (find_none _ _ Hfind) in Hin.
      apply Key_eqb_eq in Hp. congruence.
Qed.
End Handlers.

(** ** [AddPeer] and [RemovePeer] *)

Section Mutations.
Context `{Runtime}.

Lemma validateAllowedIPs_all_parse (l : list string) (st : State) :
  Forall parses l -> validateAllowedIPs l st = (inl tt, st).
Proof.
  induction 1 as [| a l [n Hn] _ IH]; simpl; [reflexivity |].
  now rewrite Hn.
Qed.

Lemma validateAllowedIPs_first_refused
  (good : list string) (bad : string) (rest : list string)
  (cerr : error) (st : State) :
  Forall parses good ->
  net_ParseCIDR bad = inr cerr ->
  validateAllowedIPs (good ++ bad :: rest) st =
    (inr (invalid (range_message bad cerr)), st).
Proof.
  intros Hgood Hbad.
  induction Hgood as [| a l [n Hn] _ IH]; simpl.
  - now rewrite Hbad.
  - now rewrite Hn.
Qed.

Lemma first_refused (l : list string) (bad : string) (cerr : error) :
  In bad l ->
  net_ParseCIDR bad = inr cerr ->
  exists good b rest e,
    l = (good ++ b :: rest)%list /\ Forall parses good /\
    net_ParseCIDR b = inr e.
Proof.
  induction l as [| a l IH]; intros Hin Hbad; [destruct Hin |].
  destruct (net_ParseCIDR a) as [n | e] eqn:Ha.
  - destruct Hin as [-> | Hin]; [congruence |].
    destruct (IH Hin Hbad) as (good & b & rest & e & -> & Hgood & Hb).
    exists (a :: good), b, rest, e. repeat split; [| exact Hb].
    constructor; [now exists n | exact Hgood].
  - exists [], a, l, e. repeat split; [constructor | exact Ha].
Qed.

(** [validateAddPeerRequest] checks the entries of [allowed_ips] last,
    after every other field has passed. *)
Lemma validateAddPeerRequest_allowed_ips_last
  (req : client.AddPeerRequest) (st : State) :
  validateAddPeerRequest (Some req) st =
    match validateAddPeerRequest (Some (without_allowed_ips req)) st with
    | (inl _, st1) => validateAllowedIPs (client.AddPeerRequest_AllowedIPs req) st1
    | (inr err, st1) => (inr err, st1)
    end.
Proof.
  destruct req as [publicKey presharedKey endpoint keepAlive allowedIPs validateOnly].
  unfold validateAddPeerRequest, without_allowed_ips. run.
  repeat branch; try reflexivity; try congruence.
Qed.

(** Without [allowed_ips], the validator returns [nil] or an
    InvalidParams error, and makes no call to the provider. *)
Lemma validateAddPeerRequest_fields
  (req : client.AddPeerRequest) (st : State) :
  exists st1,
    calls st1 = calls st /\
    (validateAddPeerRequest (Some (without_allowed_ips req)) st = (inl tt, st1) \/
     exists e, validateAddPeerRequest (Some (without_allowed_ips req)) st =
                 (inr (ErrRPC e), st1) /\ Code e = -32602).
Proof.
  destruct req as [publicKey presharedKey endpoint keepAlive allowedIPs validateOnly].
  unfold validateAddPeerRequest, without_allowed_ips. run.
  repeat branch;
    eexists; (split; [| first [left; reflexivity
                             | right; eexists; split; reflexivity]]);
    reflexivity.
Qed.

Lemma validateAllowedIPs_state (l : list string) (st : State) :
  snd (validateAllowedIPs l st) = st.
Proof.
  induction l as [| a l IH]; simpl; [reflexivity |].
  destruct (net_ParseCIDR a); [exact IH | reflexivity].
Qed.

(** Validation of an [AddPeer] request makes no call to the provider. *)
Lemma validateAddPeerRequest_no_call
  (req : client.AddPeerRequest) (st : State) :
  calls (snd (validateAddPeerRequest (Some req) st)) = calls st.
Proof.
  rewrite validateAddPeerRequest_allowed_ips_last.
  destruct (validateAddPeerRequest_fields req st)
    as (st1 & Hcalls & [-> | (e & -> & _)]).
  - now rewrite validateAllowedIPs_state.
  - exact Hcalls.
Qed.

(** [AddPeer] returns the error of its validator. *)
Lemma AddPeer_validation_error
  (s : Server) (req : option client.AddPeerRequest) (st st' : State)
  (err : error) :
  validateAddPeerRequest req st = (inr err, st') ->
  AddPeer s req st = (inr err, st').
Proof.
  intros Hval. unfold AddPeer, bindE, bind. rewrite Hval. reflexivity.
Qed.

(** C7, as the code has it: an [AddPeer] request with an entry of
    [allowed_ips] that does not parse fails with InvalidParams and makes
    no call to the provider, whatever the other entries and fields are.
    When the public key, the preshared key, the endpoint and the
    keep-alive pass their checks, which come first, the message is the
    one that names the first entry that does not parse. *)
Theorem AddPeer_refuses_bad_allowed_ip :
  forall (s : Server) (req : client.AddPeerRequest) (st : State)
         (bad : string) (cerr : error),
    In bad (client.AddPeerRequest_AllowedIPs req) ->
    net_ParseCIDR bad = inr cerr ->
    exists (e : Error) (st' : State),
      AddPeer s (Some req) st = (inr (ErrRPC e), st') /\
      Code e = -32602 /\
      calls st' = calls st /\
      (forall good rest st1,
         client.AddPeerRequest_AllowedIPs req = (good ++ bad :: rest)%list ->
         Forall parses good ->
         validateAddPeerRequest (Some (without_allowed_ips req)) st = (inl tt, st1) ->
         Message e = range_message bad cerr /\ st' = st1).
Proof.
  intros s req st bad cerr Hin Hbad.
  destruct (first_refused _ _ _ Hin Hbad) as (good0 & b & rest0 & e0 & Hsplit & Hgood0 & Hb).
  pose proof (validateAddPeerRequest_allowed_ips_last req st) as Hlast.
  destruct (validateAddPeerRequest_fields req st)
    as (st1 & Hcalls & [Hfields | (e & Hfields & Hcode)]);
    rewrite Hfields in Hlast.
  - rewrite Hsplit, (validateAllowedIPs_first_refused _ _ _ _ _ Hgood0 Hb) in Hlast.
    exists (InvalidParams (range_message b e0) None), st1.
    split; [now apply AddPeer_validation_error |].
    split; [reflexivity |]. split; [exact Hcalls |].
    intros good rest st2 Hsplit' Hgood Hpass.
    rewrite Hfields in Hpass. injection Hpass as <-. split; [| reflexivity].
    rewrite Hsplit' in Hsplit.
    pose proof (validateAllowedIPs_first_refused good bad rest cerr st1 Hgood Hbad) as H1.
    pose proof (validateAllowedIPs_first_refused good0 b rest0 e0 st1 Hgood0 Hb) as H2.
    rewrite <- Hsplit in H2. rewrite H1 in H2.
    unfold invalid, InvalidParams in H2. cbn [Message InvalidParams].
    congruence.
  - exists e, st1.
    split; [now apply AddPeer_validation_error |].
    split; [exact Hcode |]. split; [exact Hcalls |].
    intros good rest st2 _ _ Hpass. congruence.
Qed.

(** C1: a validate-only [AddPeer] or [RemovePeer] request that passes
    validation succeeds with [ok] false, in the state validation left
    and with the log of provider calls it started with; a request that
    is not validate-only and succeeds has [ok] true. *)
Theorem validate_only_makes_no_provider_call :
  forall (s : Server),
    (forall (req : client.AddPeerRequest) (st st' : State),
       validateAddPeerRequest (Some req) st = (inl tt, st') ->
       client.AddPeerRequest_ValidateOnly req = true ->
       AddPeer s (Some req) st =
         (inl {| client.AddPeerResponse_OK := false |}, st') /\
       calls st' = calls st) /\
    (forall (req : client.RemovePeerRequest) (st : State),
       validateRemovePeerRequest (Some req) = None ->
       client.RemovePeerRequest_ValidateOnly req = true ->
       RemovePeer s (Some req) st =
         (inl {| client.RemovePeerResponse_OK := false |}, st)) /\
    (forall (req : client.AddPeerRequest) (st st' : State)
            (res : client.AddPeerResponse),
       client.AddPeerRequest_ValidateOnly req = false ->
       AddPeer s (Some req) st = (inl res, st') ->
       client.AddPeerResponse_OK res = true) /\
    (forall (req : client.RemovePeerRequest) (st st' : State)
            (res : client.RemovePeerResponse),
       client.RemovePeerRequest_ValidateOnly req = false ->
       RemovePeer s (Some req) st = (inl res, st') ->
       client.RemovePeerResponse_OK res = true).
Proof.
  intros s. split; [| split; [| split]].
  - intros req st st' Hval Hflag. split.
    + unfold AddPeer, bindE, bind. rewrite Hval. simpl. now rewrite Hflag.
    + pose proof (validateAddPeerRequest_no_call req st) as Hcalls.
      now rewrite Hval in Hcalls.
  - intros req st Hval Hflag.
    unfold RemovePeer, bindE, bind. rewrite Hval. simpl. now rewrite Hflag.
  - intros req st st' res Hflag.
    unfold AddPeer, bindE at 1, bind at 1.
    destruct (validateAddPeerRequest (Some req) st) as [[[] | err] st1];
      [| discriminate].
    run. rewrite Hflag.
    repeat branch; intros [= <- _] || discriminate; reflexivity.
  - intros req st st' res Hflag.
    unfold RemovePeer. run. rewrite Hflag.
    repeat branch; intros [= <- _] || discriminate; reflexivity.
Qed.

Lemma wellformed_key_dec (s : string) :
  wellformed_key s \/ ~ wellformed_key s.
Proof.
  unfold wellformed_key.
  destruct (Nat.eq_dec (String.length s) 44) as [Hl | Hl];
    [| right; intros [Hlen _]; contradiction].
  destruct (wgtypes_ParseKey s) as [k | err].
  - left. split; [exact Hl | now exists k].
  - right. intros [_ [k Hk]]. discriminate.
Qed.

Lemma key_checks_fail (s : string) :
  ~ wellformed_key s ->
  (s =? "")%string = true \/
  ((s =? "")%string = false /\ (String.length s =? 44)%nat = false) \/
  ((s =? "")%string = false /\ (String.length s =? 44)%nat = true /\
   exists err, wgtypes_ParseKey s = inr err).
Proof.
  intros Hbad. unfold wellformed_key in Hbad.
  destruct (s =? "")%string; [now left | right].
  destruct (Nat.eqb_spec (String.length s) 44) as [Hl | Hl]; [right | now left].
  repeat split.
  destruct (wgtypes_ParseKey s) as [k | err]; [| now exists err].
  exfalso. apply Hbad. split; [exact Hl | now exists k].
Qed.

(** C3, as the code has it. For every string [s]:
    - as a public key, in each of the three validators, [s] passes
      exactly when it is well formed (44 bytes that decode to a key),
      and is refused with InvalidParams otherwise;
    - as the preshared key of an [AddPeer] request whose public key is
      well formed, a non-empty [s] that is not well formed is refused
      with InvalidParams, and an [s] that is empty (no preshared key) or
      well formed is accepted: the request validates as the request
      without preshared key does. *)
Theorem key_validation :
  forall (s : string),
    ((wellformed_key s /\
      validateGetPeerRequest (Some {| client.GetPeerRequest_PublicKey := s |}) = None) \/
     (~ wellformed_key s /\
      exists e,
        validateGetPeerRequest (Some {| client.GetPeerRequest_PublicKey := s |}) =
          Some (ErrRPC e) /\ Code e = -32602)) /\
    (forall validateOnly,
       (wellformed_key s /\
        validateRemovePeerRequest
          (Some {| client.RemovePeerRequest_PublicKey := s;
                   client.RemovePeerRequest_ValidateOnly := validateOnly |}) = None) \/
       (~ wellformed_key s /\
        exists e,
          validateRemovePeerRequest
            (Some {| client.RemovePeerRequest_PublicKey := s;
                     client.RemovePeerRequest_ValidateOnly := validateOnly |}) =
            Some (ErrRPC e) /\ Code e = -32602)) /\
    (forall presharedKey endpoint keepAlive allowedIPs validateOnly st,
       (wellformed_key s /\
        validateAddPeerRequest
          (Some (client.mkAddPeerRequest s "" "" "" [] validateOnly)) st =
          (inl tt, st)) \/
       (~ wellformed_key s /\
        exists e,
          validateAddPeerRequest
            (Some (client.mkAddPeerRequest
                     s presharedKey endpoint keepAlive allowedIPs validateOnly)) st =
            (inr (ErrRPC e), st) /\ Code e = -32602)) /\
    (forall publicKey endpoint keepAlive allowedIPs validateOnly st,
       wellformed_key publicKey ->
       ((s = "" \/ wellformed_key s) /\
        validateAddPeerRequest
          (Some (client.mkAddPeerRequest
                   publicKey s endpoint keepAlive allowedIPs validateOnly)) st =
        validateAddPeerRequest
          (Some (client.mkAddPeerRequest
                   publicKey "" endpoint keepAlive allowedIPs validateOnly)) st) \/
       (s <> "" /\ ~ wellformed_key s /\
        exists e,
          validateAddPeerRequest
            (Some (client.mkAddPeerRequest
                     publicKey s endpoint keepAlive allowedIPs validateOnly)) st =
            (inr (ErrRPC e), st) /\ Code e = -32602)).
Proof.
  intros s. split; [| split; [| split]].
  - destruct (wellformed_key_dec s) as [Hs | Hs]; [left | right]; split; try exact Hs.
    + now apply validateGetPeerRequest_passes.
    + unfold validateGetPeerRequest. simpl.
      destruct (key_checks_fail s Hs) as [-> | [[-> ->] | (-> & -> & err & ->)]];
        simpl; eexists; split; reflexivity.
  - intros validateOnly.
    destruct (wellformed_key_dec s) as [Hs | Hs]; [left | right]; split; try exact Hs.
    + unfold validateRemovePeerRequest. simpl.
      destruct (key_checks_pass s Hs) as (-> & -> & k & ->). reflexivity.
    + unfold validateRemovePeerRequest. simpl.
      destruct (key_checks_fail s Hs) as [-> | [[-> ->] | (-> & -> & err & ->)]];
        simpl; eexists; split; reflexivity.
  - intros presharedKey endpoint keepAlive allowedIPs validateOnly st.
    destruct (wellformed_key_dec s) as [Hs | Hs]; [left | right]; split; try exact Hs.
    + unfold validateAddPeerRequest. run.
      destruct (key_checks_pass s Hs) as (-> & -> & k & ->). reflexivity.
    + unfold validateAddPeerRequest. run.
      destruct (key_checks_fail s Hs) as [-> | [[-> ->] | (-> & -> & err & ->)]];
        simpl; eexists; split; reflexivity.
  - intros publicKey endpoint keepAlive allowedIPs validateOnly st Hpk.
    destruct (key_checks_pass publicKey Hpk) as (Hne & Hlen & k & Hk).
    destruct (String.eqb_spec s "") as [-> | Hnonempty].
    { left. split; [now left | reflexivity]. }
    destruct (wellformed_key_dec s) as [Hs | Hs]; [left | right].
    + split; [now right |].
      unfold validateAddPeerRequest. run. rewrite Hne, Hlen, Hk. simpl.
      destruct (key_checks_pass s Hs) as (-> & -> & k' & ->). reflexivity.
    + split; [exact Hnonempty |]. split; [exact Hs |].
      unfold validateAddPeerRequest. run. rewrite Hne, Hlen, Hk. simpl.
      destruct (key_checks_fail s Hs) as [He | [[-> ->] | (-> & -> & err & ->)]];
        simpl; try (eexists; split; reflexivity).
      apply String.eqb_eq in He. contradiction.
Qed.
End Mutations.

(** ** The dispatcher *)

Section Dispatcher.
Context `{Runtime}.

(** C9: when the handler of a registered method returns an error, the
    dispatcher writes a ServerError with code -32000 whose message is
    the text of that error, whatever the writer; the response that
    [HTTP] made for the request then carries it as its error. The text
    of an InvalidParams error starts with its own code, -32602, which
    thus survives only inside the message. *)
Theorem dispatcher_wraps_handler_errors :
  forall (decoder : Decoder) (W : Type) (writer : ResponseWriter reply W)
         (s : Server) (w : W) (r : Request) (st st' : State) (err : error),
    handler_fails s r st err st' ->
    ServeJSONRPC s w r st =
      (snd (writer_Write
              (OfError (ErrRPC (ServerError (-32000) (error_Error err) None))) w),
       st') /\
    ServeJSONRPC s (HTTP_response r) r st =
      ({| Version := "2.0";
          Result := Nil;
          Error_ := Some {| Code := -32000;
                            Message := error_Error err;
                            Data := None |};
          ID := Request_ID r |},
       st') /\
    (forall message,
       error_Error (invalid message) = "Error(-32602): " ++ message).
Proof.
  intros decoder W writer s w r st st' err Hfails.
  assert (Hany : forall (W' : Type) (writer' : ResponseWriter reply W') (w' : W'),
            ServeJSONRPC s w' r st =
              (snd (writer_Write
                      (OfError (ErrRPC (ServerError (-32000) (error_Error err) None)))
                      w'),
               st')).
  { intros W' writer' w'.
    destruct Hfails as [Hm Hrun | arg Hm Harg Hrun | arg Hm Harg Hrun
                       | arg Hm Harg Hrun | arg Hm Harg Hrun];
      unfold ServeJSONRPC, bind; rewrite Hm; simpl;
      try rewrite Harg; rewrite Hrun; reflexivity. }
  split; [apply Hany |]. split; [| reflexivity].
  rewrite Hany. reflexivity.
Qed.
End Dispatcher.

(** C10: for the method GetDeviceInfo the dispatcher calls the handler on
    an empty request and writes what it returns: the outcome is the same
    for any two requests with that method, whatever their [params], and
    under any two decoders, so nothing of it comes from decoding. *)
Theorem GetDeviceInfo_never_decodes_params :
  forall (rt : Runtime) (d1 d2 : Decoder) (W : Type)
         (writer : ResponseWriter reply W)
         (s : Server) (w : W) (r1 r2 : Request) (st : State),
    Method r1 = "GetDeviceInfo" ->
    Method r2 = "GetDeviceInfo" ->
    @ServeJSONRPC rt d1 W writer s w r1 st = @ServeJSONRPC rt d2 W writer s w r2 st /\
    @ServeJSONRPC rt d1 W writer s w r1 st =
      (let (x, st') := GetDeviceInfo s (Some client.mkGetDeviceInfoRequest) st in
       (snd (writer_Write (handled OfGetDeviceInfo x) w), st')).
Proof.
  intros rt d1 d2 W writer s w r1 r2 st Hm1 Hm2.
  unfold ServeJSONRPC, bind. rewrite Hm1, Hm2. simpl.
  split; [reflexivity |].
  destruct (GetDeviceInfo s (Some client.mkGetDeviceInfoRequest) st) as [x st'].
  reflexivity.
Qed.

(** ** Concrete runs

    The theorems above at requests run against the interface [fake.wg0],
    and the inputs at which two statements of the specification fail. *)

Lemma key1_wellformed : @wellformed_key fake.runtime fake.key1.
Proof. split; [reflexivity | eexists; vm_compute; reflexivity]. Defined.

(** C1 at four requests: [AddPeer] and [RemovePeer], validate-only and
    not. The validate-only runs leave the state untouched; the others call
    the provider and report [ok]. *)
Lemma validate_only_makes_no_provider_call_witness :
  (AddPeer fake.svc
     (Some (client.mkAddPeerRequest fake.key1 fake.key2 "1.2.3.4:51820" "25s"
              ["10.1.1.0/24"] true))
     (fake.start []) =
     (inl {| client.AddPeerResponse_OK := false |}, fake.start []) /\
   calls (fake.start []) = calls (fake.start [])) /\
  RemovePeer fake.svc (Some (client.mkRemovePeerRequest fake.key1 true))
    (fake.start [fake.entry1]) =
    (inl {| client.RemovePeerResponse_OK := false |}, fake.start [fake.entry1]) /\
  (exists st',
     AddPeer fake.svc
       (Some (client.mkAddPeerRequest fake.key1 "" "" "" ["10.1.1.0/24"] false))
       (fake.start []) =
       (inl {| client.AddPeerResponse_OK := true |}, st') /\
     client.AddPeerResponse_OK {| client.AddPeerResponse_OK := true |} = true) /\
  (exists st',
     RemovePeer fake.svc (Some (client.mkRemovePeerRequest fake.key1 false))
       (fake.start [fake.entry1]) =
       (inl {| client.RemovePeerResponse_OK := true |}, st') /\
     client.RemovePeerResponse_OK {| client.RemovePeerResponse_OK := true |} = true).
Proof.
  destruct (validate_only_makes_no_provider_call (H := fake.runtime) fake.svc)
    as (Hadd & Hremove & Hadd_ok & Hremove_ok).
  split; [| split; [| split]].
  - apply Hadd; reflexivity.
  - apply Hremove; reflexivity.
  - eexists. split; [evaluate; reflexivity |].
    refine (Hadd_ok
              (client.mkAddPeerRequest fake.key1 "" "" "" ["10.1.1.0/24"] false)
              (fake.start []) _ _ eq_refl _).
    evaluate; reflexivity.
  - eexists. split; [evaluate; reflexivity |].
    refine (Hremove_ok (client.mkRemovePeerRequest fake.key1 false)
              (fake.start [fake.entry1]) _ _ eq_refl _).
    evaluate; reflexivity.
Defined.

(** C2 at the key of the README: absent from an interface that holds
    another peer, found in second place on an interface that holds both. *)
Lemma GetPeer_by_public_key_witness :
  GetPeer fake.svc (Some (client.mkGetPeerRequest fake.key1))
    (fake.start [fake.entry2]) =
    (inl {| client.GetPeerResponse_Peer := None |},
     after_Device fake.svc (fake.start [fake.entry2]) [fake.entry2]) /\
  exists q,
    wgtypes.Peer_PublicKey q = fake.key_of fake.key1 /\
    GetPeer fake.svc (Some (client.mkGetPeerRequest fake.key1))
      (fake.start [fake.entry2; fake.entry1]) =
      (inl {| client.GetPeerResponse_Peer := Some (peer2rpc q) |},
       after_Device fake.svc (fake.start [fake.entry2; fake.entry1])
         [fake.entry2; fake.entry1]).
Proof.
  split.
  - refine (proj1 (GetPeer_by_public_key (H := fake.runtime) fake.svc
                     (client.mkGetPeerRequest fake.key1) (fake.start [fake.entry2])
                     _ [fake.entry2] (fake.key_of fake.key1) _ _ _) _).
    + reflexivity.
    + reflexivity.
    + reflexivity.
    + intros p [<- | []]. vm_compute. discriminate.
  - destruct (proj2 (GetPeer_by_public_key (H := fake.runtime) fake.svc
                       (client.mkGetPeerRequest fake.key1)
                       (fake.start [fake.entry2; fake.entry1])
                       _ [fake.entry2; fake.entry1] (fake.key_of fake.key1)
                       eq_refl ltac:(reflexivity) eq_refl)
                (fake.peer_of_entry fake.entry1))
      as (before & q & rest & _ & _ & Hq & Hrun).
    + right; left; reflexivity.
    + reflexivity.
    + exists q. split; [exact Hq | exact Hrun].
Defined.

(** C3 at a preshared key of five bytes beside the key of the README: the
    request is refused with InvalidParams. *)
Lemma key_validation_witness :
  @wellformed_key fake.runtime fake.key1 /\
  exists e,
    validateAddPeerRequest
      (Some (client.mkAddPeerRequest fake.key1 "short" "" "" [] false))
      (fake.start []) =
      (inr (ErrRPC e), fake.start []) /\
    Code e = -32602.
Proof.
  split; [exact key1_wellformed |].
  destruct (proj2 (proj2 (proj2 (key_validation (H := fake.runtime) "short")))
              fake.key1 "" "" [] false (fake.start []) key1_wellformed)
    as [[[Hempty | [Hlen _]] _] | (_ & _ & Hrefused)].
  - discriminate Hempty.
  - discriminate Hlen.
  - exact Hrefused.
Defined.

(** C3, as the specification states it, fails for the preshared key: the
    empty string is not a well-formed key, and an [AddPeer] request whose
    preshared key is empty passes validation. *)
Lemma empty_preshared_key_passes_validation :
  ~ @wellformed_key fake.runtime "" /\
  validateAddPeerRequest
    (Some (client.mkAddPeerRequest fake.key1 "" "" "" [] false))
    (fake.start []) =
    (inl tt, fake.start []).
Proof.
  split; [intros [Hlen _]; discriminate Hlen | reflexivity].
Qed.

(** C6 at [limit] -1, and at [limit] 3. *)
Lemma ListPeers_negative_pagination_witness :
  (exists e : Error,
     ListPeers fake.svc (Some {| client.Limit := -1; client.Offset := 0 |})
       (fake.start [fake.entry1]) =
       (inr (ErrRPC e), fake.start [fake.entry1]) /\
     Code e = -32602) /\
  validateListPeersRequest (Some {| client.Limit := 3; client.Offset := 0 |}) = None.
Proof.
  split.
  - apply (proj1 (ListPeers_negative_pagination (H := fake.runtime) fake.svc
                    {| client.Limit := -1; client.Offset := 0 |}
                    (fake.start [fake.entry1]))).
    left. simpl. lia.
  - apply (proj2 (ListPeers_negative_pagination (H := fake.runtime) fake.svc
                    {| client.Limit := 3; client.Offset := 0 |}
                    (fake.start []))).
    simpl. lia.
Defined.

(** C7 at a list whose second entry has the prefix length 99: the request
    is refused, no call is made, and the message is the one for that
    entry, which it contains. *)
Lemma AddPeer_refuses_bad_allowed_ip_witness :
  exists (e : Error) (st' : State),
    AddPeer fake.svc
      (Some (client.mkAddPeerRequest fake.key1 "" "" ""
               ["10.1.1.0/24"; "10.1.1.0/99"; "10.2.0.0/16"] false))
      (fake.start []) =
      (inr (ErrRPC e), st') /\
    Code e = -32602 /\
    calls st' = [] /\
    Message e =
      range_message (H := fake.runtime) "10.1.1.0/99"
        (ErrText "invalid CIDR address: 10.1.1.0/99") /\
    mentions "10.1.1.0/99" (Message e) = true.
Proof.
  destruct (AddPeer_refuses_bad_allowed_ip (H := fake.runtime) fake.svc
              (client.mkAddPeerRequest fake.key1 "" "" ""
                 ["10.1.1.0/24"; "10.1.1.0/99"; "10.2.0.0/16"] false)
              (fake.start []) "10.1.1.0/99"
              (ErrText "invalid CIDR address: 10.1.1.0/99"))
    as (e & st' & Hrun & Hcode & Hcalls & Hmessage).
  - right; left; reflexivity.
  - reflexivity.
  - destruct (Hmessage ["10.1.1.0/24"] ["10.2.0.0/16"] (fake.start []))
      as [Hmsg _].
    + reflexivity.
    + constructor; [eexists; reflexivity | constructor].
    + reflexivity.
    + exists e, st'. repeat split; try assumption.
      rewrite Hmsg. reflexivity.
Defined.

(** C7, as the specification states it, fails: with an empty public key
    beside the entry that does not parse, the call fails on the public
    key, and its message does not name the entry. *)
Lemma AddPeer_bad_allowed_ip_not_named :
  (exists cerr, @net_ParseCIDR fake.runtime "10.1.1.0/99" = inr cerr) /\
  AddPeer fake.svc
    (Some (client.mkAddPeerRequest "" "" "" "" ["10.1.1.0/99"] false))
    (fake.start []) =
    (inr (invalid "public key is required"), fake.start []) /\
  mentions "10.1.1.0/99" "public key is required" = false /\
  mentions (@strconv_Quote fake.runtime "10.1.1.0/99") "public key is required"
    = false.
Proof.
  split; [eexists; reflexivity |]. repeat split; reflexivity.
Qed.

(** C8 at [limit] 1 on an interface of two peers: both are returned. *)
Lemma ListPeers_returns_every_peer_witness :
  ListPeers fake.svc (Some {| client.Limit := 1; client.Offset := 5 |})
    (fake.start [fake.entry2; fake.entry1]) =
    (inl {| client.Peers :=
              [peer2rpc (fake.peer_of_entry fake.entry2);
               peer2rpc (fake.peer_of_entry fake.entry1)] |},
     after_Device fake.svc (fake.start [fake.entry2; fake.entry1])
       [fake.entry2; fake.entry1]).
Proof.
  apply (ListPeers_returns_every_peer (H := fake.runtime) fake.svc
           {| client.Limit := 1; client.Offset := 5 |}
           (fake.start [fake.entry2; fake.entry1])
           {| wgtypes.Name := "wg0";
              wgtypes.Type_ := 1;
              wgtypes.PublicKey := wgtypes.Key_zero;
              wgtypes.ListenPort := 51820;
              wgtypes.FirewallMark := 0;
              wgtypes.Peers := map fake.peer_of_entry [fake.entry2; fake.entry1] |}
           [fake.entry2; fake.entry1]).
  - reflexivity.
  - reflexivity.
Defined.

(** C9 at a [ListPeers] request with [limit] -1: the handler builds an
    InvalidParams error, and the response carries the code -32000 with
    the text of that error as its message. *)
Lemma dispatcher_wraps_handler_errors_witness :
  @ServeJSONRPC fake.runtime fake.decoder _ _ fake.svc
    (HTTP_response fake.list_request) fake.list_request
    (fake.start [fake.entry1]) =
    ({| Version := "2.0";
        Result := Nil;
        Error_ := Some {| Code := -32000;
                          Message := "Error(-32602): limit must be positive integer";
                          Data := None |};
        ID := "7" |},
     fake.start [fake.entry1]).
Proof.
  refine (proj1 (proj2 (dispatcher_wraps_handler_errors (H := fake.runtime)
                          fake.decoder _ _ fake.svc
                          (HTTP_response fake.list_request) fake.list_request
                          (fake.start [fake.entry1]) (fake.start [fake.entry1])
                          (invalid "limit must be positive integer") _))).
  apply (fails_ListPeers (H0 := fake.decoder) fake.svc fake.list_request _ _ _
           {| client.Limit := -1; client.Offset := 0 |});
    reflexivity.
Defined.

(** C10 at two GetDeviceInfo requests, one with an empty object and one
    with a payload that the decoder refuses: the same response. *)
Lemma GetDeviceInfo_never_decodes_params_witness :
  (exists err,
     Unmarshal_ListPeersRequest (Decoder := fake.decoder)
       (Params fake.info_request_bad_params) = inr err) /\
  @ServeJSONRPC fake.runtime fake.decoder _ _ fake.svc
    (HTTP_response fake.info_request) fake.info_request
    (fake.start [fake.entry1]) =
  @ServeJSONRPC fake.runtime fake.decoder _ _ fake.svc
    (HTTP_response fake.info_request) fake.info_request_bad_params
    (fake.start [fake.entry1]).
Proof.
  split; [eexists; reflexivity |].
  apply (GetDeviceInfo_never_decodes_params fake.runtime fake.decoder fake.decoder
           _ _ fake.svc (HTTP_response fake.info_request)
           fake.info_request fake.info_request_bad_params
           (fake.start [fake.entry1]));
    reflexivity.
Defined.

(** * Further properties of the code *)

(** ** The dispatcher, case by case *)

Section Dispatching.
Context `{Runtime}.

Lemma registered_false (method : string) :
  registered method = false ->
  (method =? "GetDeviceInfo")%string = false /\
  (method =? "ListPeers")%string = false /\
  (method =? "GetPeer")%string = false /\
  (method =? "AddPeer")%string = false /\
  (method =? "RemovePeer")%string = false.
Proof.
  unfold registered. simpl. rewrite orb_false_r.
  intros Hm. repeat (apply orb_false_iff in Hm; destruct Hm as [? Hm]).
  repeat split; assumption.
Qed.

(** X1: a request whose method is none of the five names is answered with
    MethodNotFound, code -32601; no handler runs, nothing is decoded, and
    the state is the one the request found. *)
Theorem unknown_method_is_not_found :
  forall (decoder : Decoder) (W : Type) (writer : ResponseWriter reply W)
         (s : Server) (w : W) (r : Request) (st : State),
    registered (Method r) = false ->
    ServeJSONRPC s w r st =
      (snd (writer_Write
              (OfError (ErrRPC (MethodNotFound "method not found" None))) w),
       st) /\
    ServeJSONRPC s (HTTP_response r) r st =
      ({| Version := "2.0";
          Result := Nil;
          Error_ := Some {| Code := -32601;
                            Message := "method not found";
                            Data := None |};
          ID := Request_ID r |},
       st).
Proof.
  intros decoder W writer s w r st Hm.
  destruct (registered_false _ Hm) as (H1 & H2 & H3 & H4 & H5).
  unfold ServeJSONRPC, bind. rewrite H1, H2, H3, H4, H5.
  split; reflexivity.
Qed.

(** X2: for the four methods that take parameters, parameters that do not
    decode are answered with ParseError, code -32700, carrying the text of
    the decoder's error; the handler does not run and the state is
    unchanged. *)
Theorem undecodable_params_are_a_parse_error :
  forall (decoder : Decoder) (W : Type) (writer : ResponseWriter reply W)
         (s : Server) (w : W) (r : Request) (st : State) (err : error),
    decode_fails r err ->
    ServeJSONRPC s w r st =
      (snd (writer_Write
              (OfError (ErrRPC (ParseError (error_Error err) None))) w),
       st) /\
    ServeJSONRPC s (HTTP_response r) r st =
      ({| Version := "2.0";
          Result := Nil;
          Error_ := Some {| Code := -32700;
                            Message := error_Error err;
                            Data := None |};
          ID := Request_ID r |},
       st).
Proof.
  intros decoder W writer s w r st err Hfails.
  destruct Hfails as [Hm Harg | Hm Harg | Hm Harg | Hm Harg];
    unfold ServeJSONRPC, bind; rewrite Hm; simpl; rewrite Harg;
    split; reflexivity.
Qed.

(** X3: when the handler of a registered method returns a response, the
    dispatcher writes that response as the result, and the response that
    [HTTP] made for the request carries it with no error. *)
Theorem dispatcher_writes_handler_result :
  forall (decoder : Decoder) (W : Type) (writer : ResponseWriter reply W)
         (s : Server) (w : W) (r : Request) (st st' : State) (res : reply),
    handler_returns s r st res st' ->
    ServeJSONRPC s w r st = (snd (writer_Write (Value res) w), st') /\
    ServeJSONRPC s (HTTP_response r) r st =
      ({| Version := "2.0";
          Result := Value res;
          Error_ := None;
          ID := Request_ID r |},
       st').
Proof.
  intros decoder W writer s w r st st' res Hreturns.
  destruct Hreturns as [x Hm Hrun -> | arg x Hm Harg Hrun ->
                       | arg x Hm Harg Hrun -> | arg x Hm Harg Hrun ->
                       | arg x Hm Harg Hrun ->];
    unfold ServeJSONRPC, bind; rewrite Hm; simpl;
    try rewrite Harg; rewrite Hrun; split; reflexivity.
Qed.

Lemma handled_dispatched {A : Type} (wrap : A -> reply) (x : A + error) :
  dispatched (handled wrap x).
Proof.
  destruct x as [a | err]; [left; now eexists | right].
  eexists. repeat split. now left.
Qed.

Lemma ParseError_dispatched (err : error) :
  dispatched (OfError (ErrRPC (ParseError (error_Error err) None))).
Proof. right. eexists. repeat split. right; now left. Qed.

(** Whatever the request, the dispatcher hands one value to [Write]: a
    response struct or one of its three errors. *)
Lemma dispatcher_writes_once
  (decoder : Decoder) (s : Server) (r : Request) (st : State) :
  exists (x : any reply) (st' : State),
    dispatched x /\
    forall (W : Type) (writer : ResponseWriter reply W) (w : W),
      ServeJSONRPC s w r st = (snd (writer_Write x w), st').
Proof.
  unfold ServeJSONRPC, bind.
  destruct (Method r =? "GetDeviceInfo")%string.
  { destruct (GetDeviceInfo s _ st) as [x st'].
    exists (handled OfGetDeviceInfo x), st'.
    split; [apply handled_dispatched | reflexivity]. }
  destruct (Method r =? "ListPeers")%string.
  { destruct (Unmarshal_ListPeersRequest (Params r)) as [arg | err].
    - destruct (ListPeers s _ st) as [x st'].
      exists (handled OfListPeers x), st'.
      split; [apply handled_dispatched | reflexivity].
    - eexists _, st. split; [apply ParseError_dispatched | reflexivity]. }
  destruct (Method r =? "GetPeer")%string.
  { destruct (Unmarshal_GetPeerRequest (Params r)) as [arg | err].
    - destruct (GetPeer s _ st) as [x st'].
      exists (handled OfGetPeer x), st'.
      split; [apply handled_dispatched | reflexivity].
    - eexists _, st. split; [apply ParseError_dispatched | reflexivity]. }
  destruct (Method r =? "AddPeer")%string.
  { destruct (Unmarshal_AddPeerRequest (Params r)) as [arg | err].
    - destruct (AddPeer s _ st) as [x st'].
      exists (handled OfAddPeer x), st'.
      split; [apply handled_dispatched | reflexivity].
    - eexists _, st. split; [apply ParseError_dispatched | reflexivity]. }
  destruct (Method r =? "RemovePeer")%string.
  { destruct (Unmarshal_RemovePeerRequest (Params r)) as [arg | err].
    - destruct (RemovePeer s _ st) as [x st'].
      exists (handled OfRemovePeer x), st'.
      split; [apply handled_dispatched | reflexivity].
    - eexists _, st. split; [apply ParseError_dispatched | reflexivity]. }
  eexists _, st. split; [| reflexivity].
  right. eexists. repeat split. right; now right.
Qed.

(** X4: whatever the request and the state, the response that [HTTP] made
    for the request leaves the dispatcher with the version 2.0, the id of
    the request, and exactly one of a result and an error. The error has
    no data and one of the codes -32000, -32700 and -32601: the codes
    -32600, -32602 and -32603 never reach the top of a response. *)
Theorem served_response_invariant :
  forall (decoder : Decoder) (s : Server) (r : Request) (st : State),
    let w := fst (ServeJSONRPC s (HTTP_response r) r st) in
    Version w = "2.0" /\
    ID w = Request_ID r /\
    ((exists v, Result w = Value v /\ Error_ w = None) \/
     (exists e, Result w = Nil /\ Error_ w = Some e /\ Data e = None /\
                (Code e = -32000 \/ Code e = -32700 \/ Code e = -32601))).
Proof.
  intros decoder s r st.
  destruct (dispatcher_writes_once decoder s r st) as (x & st' & Hx & Hrun).
  rewrite Hrun. simpl.
  destruct Hx as [[v ->] | (e & -> & Hdata & Hcode)]; simpl.
  - repeat split. left. now exists v.
  - repeat split. right. now exists e.
Qed.
End Dispatching.

(** ** The handlers: provider calls and errors *)

Section HandlerEffects.
Context `{Runtime}.

Lemma validateAllowedIPs_result (l : list string) (st : State) :
  (validateAllowedIPs l st = (inl tt, st) /\ Forall parses l) \/
  (exists err, validateAllowedIPs l st = (inr err, st) /\
               is_InvalidParams err /\ ~ Forall parses l).
Proof.
  induction l as [| a l IH]; simpl.
  - left. split; [reflexivity | constructor].
  - destruct (net_ParseCIDR a) as [n | cerr] eqn:Ha.
    + destruct IH as [[Hrun Hall] | (err & Hrun & Hkind & Hnot)].
      * left. split; [exact Hrun |]. constructor; [now exists n | exact Hall].
      * right. exists err. repeat split; try assumption.
        intros Hall. inversion Hall; subst. contradiction.
    + right. eexists. split; [reflexivity |]. split.
      * eexists. split; reflexivity.
      * intros Hall. inversion Hall as [| ? ? [n Hn] ?]; subst. congruence.
Qed.

Lemma parsed_ranges_cons (a : string) (n : net_IPNet) (l : list string) :
  net_ParseCIDR a = inl n -> parsed_ranges (a :: l) = n :: parsed_ranges l.
Proof. intros Ha. unfold parsed_ranges. simpl. now rewrite Ha. Qed.

Lemma appendAllowedIPs_parsed (l : list string) :
  forall (acc : list net_IPNet) (st : State),
    Forall parses l ->
    appendAllowedIPs l acc st = (inl (acc ++ parsed_ranges l)%list, st).
Proof.
  induction l as [| a l IH]; intros acc st Hall.
  - unfold parsed_ranges. simpl. now rewrite app_nil_r.
  - inversion Hall as [| ? ? [n Hn] Hrest]; subst.
    rewrite (parsed_ranges_cons _ _ _ Hn). simpl.
    rewrite Hn, IH by assumption.
    now rewrite <- app_assoc.
Qed.

Lemma appendAllowedIPs_result (l : list string) :
  forall (acc : list net_IPNet) (st : State),
    exists r, appendAllowedIPs l acc st = (r, st) /\
              match r with
              | inl _ => True
              | inr err => is_InvalidParams err
              end.
Proof.
  induction l as [| a l IH]; intros acc st; simpl.
  - eexists. split; [reflexivity | exact I].
  - destruct (net_ParseCIDR a) as [n | cerr]; [apply IH |].
    eexists. split; [reflexivity |]. eexists. split; reflexivity.
Qed.

(** X5: the three handlers that read make at most one call to the
    provider, a [Device] query on the configured name: they never call
    [ConfigureDevice], whatever the request and the outcome. *)
Theorem read_handlers_only_query :
  forall (s : Server) (st : State),
    let queried st' :=
      calls st' = calls st \/
      calls st' = (calls st ++ [CallDevice (deviceName s)])%list in
    (forall req, queried (snd (GetDeviceInfo s req st))) /\
    (forall req, queried (snd (ListPeers s req st))) /\
    (forall req, queried (snd (GetPeer s req st))).
Proof.
  intros s st queried. unfold queried. repeat split; intros req.
  - unfold GetDeviceInfo. run. repeat branch; auto.
  - unfold ListPeers, validateListPeersRequest. run.
    destruct req as [req |]; simpl; repeat branch; auto.
  - unfold GetPeer, validateGetPeerRequest. run.
    destruct req as [req |]; simpl; repeat branch; auto.
Qed.

(** X6: when the provider refuses the query, each of the three handlers
    that read returns the provider's error behind the text "could not get
    WireGuard device: ", after that one call. *)
Theorem provider_failure_on_read :
  forall (s : Server) (st : State) (perr : error) (w : World),
    wgctrl.Device (wg s) (deviceName s) (world st) = (inr perr, w) ->
    (forall req,
       GetDeviceInfo s req st = (inr (device_error perr), after_Device s st w)) /\
    (forall req,
       validateListPeersRequest (Some req) = None ->
       ListPeers s (Some req) st = (inr (device_error perr), after_Device s st w)) /\
    (forall req,
       wellformed_key (client.GetPeerRequest_PublicKey req) ->
       GetPeer s (Some req) st = (inr (device_error perr), after_Device s st w)).
Proof.
  intros s st perr w Hdev. repeat split.
  - intros req. unfold GetDeviceInfo. run. now rewrite Hdev.
  - intros req Hval. unfold ListPeers. rewrite Hval. run. now rewrite Hdev.
  - intros req Hkey. apply validateGetPeerRequest_passes in Hkey.
    unfold GetPeer. rewrite Hkey. run. now rewrite Hdev.
Qed.

(** X7: a request that its validator refuses is answered with the
    validator's error and reaches the provider in no handler: the state
    is unchanged, or, for [AddPeer], changed by the resolver only. *)
Theorem validation_failure_short_circuits :
  forall (s : Server) (st : State),
    (forall req err,
       validateListPeersRequest req = Some err ->
       ListPeers s req st = (inr err, st)) /\
    (forall req err,
       validateGetPeerRequest req = Some err ->
       GetPeer s req st = (inr err, st)) /\
    (forall req err,
       validateRemovePeerRequest req = Some err ->
       RemovePeer s req st = (inr err, st)) /\
    (forall req err st1,
       validateAddPeerRequest req st = (inr err, st1) ->
       AddPeer s req st = (inr err, st1) /\ calls st1 = calls st).
Proof.
  intros s st. split; [| split; [| split]].
  - intros req err Hval. unfold ListPeers. rewrite Hval. reflexivity.
  - intros req err Hval. unfold GetPeer. rewrite Hval. reflexivity.
  - intros req err Hval. unfold RemovePeer. rewrite Hval. reflexivity.
  - intros req err st1 Hval. split.
    + unfold AddPeer, bindE, bind. now rewrite Hval.
    + destruct req as [req |].
      * pose proof (validateAddPeerRequest_no_call req st) as Hcalls.
        now rewrite Hval in Hcalls.
      * injection Hval as _ <-. reflexivity.
Qed.

Lemma tested_key (s : string) :
  negb (String.length s =? 44)%nat = false ->
  forall k, wgtypes_ParseKey s = inl k -> wellformed_key s.
Proof.
  intros Hlen k Hk. apply negb_false_iff, Nat.eqb_eq in Hlen.
  split; [exact Hlen | now exists k].
Qed.

(** The fields of an [AddPeer] request other than [allowed_ips] pass
    exactly when each of them is absent, where it may be, or parses. *)
Lemma validateAddPeerRequest_fields_pass
  (req : client.AddPeerRequest) (st st1 : State) :
  validateAddPeerRequest (Some (without_allowed_ips req)) st = (inl tt, st1) <->
  wellformed_key (client.AddPeerRequest_PublicKey req) /\
  (client.PresharedKey req = "" \/ wellformed_key (client.PresharedKey req)) /\
  (exists endpoint,
     resolved (client.AddPeerRequest_Endpoint req) st = (inl endpoint, st1)) /\
  (client.AddPeerRequest_PersistentKeepAlive req = "" \/
   exists d, time_ParseDuration (client.AddPeerRequest_PersistentKeepAlive req) = inl d).
Proof.
  destruct req as [publicKey presharedKey endpoint keepAlive allowedIPs validateOnly].
  unfold without_allowed_ips, resolved. simpl. split.
  - intros Hrun. unfold validateAddPeerRequest in Hrun. run.
    destruct (String.eqb_spec presharedKey "") as [Hpsk | Hpsk];
      destruct (String.eqb_spec endpoint "") as [Hep | Hep];
      destruct (String.eqb_spec keepAlive "") as [Hka | Hka];
      simpl in Hrun; repeat branch_in Hrun;
      injection Hrun as <-;
      (split; [eapply tested_key; eassumption |]);
      (split; [first [now left | right; eapply tested_key; eassumption] |]);
      (split; [eexists; reflexivity |]);
      first [now left | right; eexists; first [eassumption | reflexivity]].
  - intros (Hpk & Hpsk & [ep Hep] & Hka).
    destruct (key_checks_pass _ Hpk) as (Hne & Hlen & k & Hk).
    unfold validateAddPeerRequest. run. rewrite Hne, Hlen, Hk. simpl.
    assert (Hpsk' : (if negb (presharedKey =? "")%string
                     then (if negb (String.length presharedKey =? 44)%nat
                           then false
                           else match wgtypes_ParseKey presharedKey with
                                | inl _ => true
                                | inr _ => false
                                end)
                     else true) = true).
    { destruct Hpsk as [-> | Hpsk]; [reflexivity |].
      destruct (key_checks_pass _ Hpsk) as (-> & -> & k' & ->). reflexivity. }
    destruct (negb (presharedKey =? "")%string); simpl.
    + destruct (negb (String.length presharedKey =? 44)%nat); [discriminate |].
      simpl. destruct (wgtypes_ParseKey presharedKey); [| discriminate]. simpl.
      destruct (endpoint =? "")%string; simpl.
      * injection Hep as _ <-.
        destruct Hka as [-> | [d ->]]; [reflexivity |].
        destruct (negb (keepAlive =? "")%string); reflexivity.
      * destruct (net_ResolveUDPAddr endpoint (world st)) as [[a | err] w];
          [| discriminate]. injection Hep as _ <-. simpl.
        destruct Hka as [-> | [d ->]]; [reflexivity |].
        destruct (negb (keepAlive =? "")%string); reflexivity.
    + destruct (endpoint =? "")%string; simpl.
      * injection Hep as _ <-.
        destruct Hka as [-> | [d ->]]; [reflexivity |].
        destruct (negb (keepAlive =? "")%string); reflexivity.
      * destruct (net_ResolveUDPAddr endpoint (world st)) as [[a | err] w];
          [| discriminate]. injection Hep as _ <-. simpl.
        destruct Hka as [-> | [d ->]]; [reflexivity |].
        destruct (negb (keepAlive =? "")%string); reflexivity.
Qed.
End HandlerEffects.

(** ** [AddPeer] and [RemovePeer]: what is validated and what is submitted *)

Section Submissions.
Context `{Runtime}.

Lemma validateAddPeerRequest_passed
  (req : client.AddPeerRequest) (st st1 : State) :
  validateAddPeerRequest (Some req) st = (inl tt, st1) ->
  validateAddPeerRequest (Some (without_allowed_ips req)) st = (inl tt, st1) /\
  Forall parses (client.AddPeerRequest_AllowedIPs req).
Proof.
  rewrite validateAddPeerRequest_allowed_ips_last.
  destruct (validateAddPeerRequest (Some (without_allowed_ips req)) st)
    as [[[] | err] st'] eqn:Hfields; [| discriminate].
  destruct (validateAllowedIPs_result (client.AddPeerRequest_AllowedIPs req) st')
    as [[Hrun Hall] | (err & Hrun & _)]; rewrite Hrun; [| discriminate].
  intros [= <-]. now split.
Qed.

(** X8: an [AddPeer] request passes validation exactly when its public
    key is well formed, its preshared key is empty or well formed, its
    endpoint is empty or resolves, its keep-alive is empty or parses as a
    duration, and every entry of [allowed_ips] parses; validation leaves
    the state the resolver left. *)
Theorem validateAddPeerRequest_passes_iff :
  forall (req : client.AddPeerRequest) (st st1 : State),
    validateAddPeerRequest (Some req) st = (inl tt, st1) <->
    wellformed_key (client.AddPeerRequest_PublicKey req) /\
    (client.PresharedKey req = "" \/ wellformed_key (client.PresharedKey req)) /\
    (exists endpoint,
       resolved (client.AddPeerRequest_Endpoint req) st = (inl endpoint, st1)) /\
    (client.AddPeerRequest_PersistentKeepAlive req = "" \/
     exists d,
       time_ParseDuration (client.AddPeerRequest_PersistentKeepAlive req) = inl d) /\
    Forall parses (client.AddPeerRequest_AllowedIPs req).
Proof.
  intros req st st1. split.
  - intros Hrun. apply validateAddPeerRequest_passed in Hrun.
    destruct Hrun as [Hfields Hall].
    apply validateAddPeerRequest_fields_pass in Hfields. tauto.
  - intros (Hpk & Hpsk & Hep & Hka & Hall).
    rewrite validateAddPeerRequest_allowed_ips_last.
    rewrite (proj2 (validateAddPeerRequest_fields_pass req st st1))
      by (split; [exact Hpk | split; [exact Hpsk | split; [exact Hep | exact Hka]]]).
    now apply validateAllowedIPs_all_parse.
Qed.

(** X9: the checks of an [AddPeer] request come in a fixed order. With
    keys that pass, an endpoint that does not resolve is the error that
    is reported, whatever the keep-alive and [allowed_ips] are; with an
    endpoint that passes too, a keep-alive that does not parse is the
    error that is reported, whatever [allowed_ips] is. *)
Theorem validateAddPeerRequest_reports_first_failure :
  forall (req : client.AddPeerRequest) (st st1 : State),
    wellformed_key (client.AddPeerRequest_PublicKey req) ->
    (client.PresharedKey req = "" \/ wellformed_key (client.PresharedKey req)) ->
    (forall err,
       resolved (client.AddPeerRequest_Endpoint req) st = (inr err, st1) ->
       validateAddPeerRequest (Some req) st =
         (inr (invalid ("invalid endpoint: " ++ error_Error err)), st1)) /\
    (forall endpoint err,
       resolved (client.AddPeerRequest_Endpoint req) st = (inl endpoint, st1) ->
       client.AddPeerRequest_PersistentKeepAlive req <> "" ->
       time_ParseDuration (client.AddPeerRequest_PersistentKeepAlive req) = inr err ->
       validateAddPeerRequest (Some req) st =
         (inr (invalid ("invalid keepalive: " ++ error_Error err)), st1)).
Proof.
  intros [publicKey presharedKey endpoint keepAlive allowedIPs validateOnly]
         st st1 Hpk Hpsk.
  simpl in Hpk, Hpsk.
  destruct (key_checks_pass _ Hpk) as (Hne & Hlen & k & Hk).
  assert (Hkeys :
            validateAddPeerRequest
              (Some (client.mkAddPeerRequest publicKey presharedKey endpoint
                       keepAlive allowedIPs validateOnly)) st =
            validateAddPeerRequest
              (Some (client.mkAddPeerRequest publicKey "" endpoint
                       keepAlive allowedIPs validateOnly)) st).
  { unfold validateAddPeerRequest. run. rewrite Hne, Hlen, Hk. simpl.
    destruct Hpsk as [-> | Hpsk]; [reflexivity |].
    destruct (key_checks_pass _ Hpsk) as (-> & -> & k' & ->). reflexivity. }
  rewrite Hkeys. clear Hkeys.
  unfold validateAddPeerRequest, resolved. run. rewrite Hne, Hlen, Hk. simpl.
  split.
  - intros err.
    destruct (endpoint =? "")%string; simpl; [discriminate |].
    destruct (net_ResolveUDPAddr endpoint (world st)) as [[a | err'] w];
      [discriminate |].
    intros [= <- <-]. reflexivity.
  - intros ep err Hep Hka Hdur.
    apply String.eqb_neq in Hka. rewrite Hka, Hdur. simpl.
    destruct (endpoint =? "")%string; simpl.
    + injection Hep as _ <-. reflexivity.
    + destruct (net_ResolveUDPAddr endpoint (world st)) as [[a | err'] w];
        [| discriminate].
      injection Hep as _ <-. reflexivity.
Qed.

Lemma optional_key (field : string) :
  field = "" \/ wellformed_key field ->
  (if negb (field =? "")%string
   then match wgtypes_ParseKey field with
        | inl k => inl (Some k)
        | inr err => inr err
        end
   else inl None) = inl (optional wgtypes_ParseKey field).
Proof.
  unfold optional. intros [-> | Hfield]; [reflexivity |].
  destruct (key_checks_pass _ Hfield) as (-> & _ & k & ->). reflexivity.
Qed.

Lemma optional_duration (field : string) :
  (field = "" \/ exists d, time_ParseDuration field = inl d) ->
  (if negb (field =? "")%string
   then match time_ParseDuration field with
        | inl d => inl (Some d)
        | inr err => inr err
        end
   else inl None) = inl (optional time_ParseDuration field).
Proof.
  unfold optional. intros [-> | [d Hd]]; [reflexivity |].
  rewrite Hd. destruct (field =? "")%string; reflexivity.
Qed.

Lemma parsed_ranges_each (l : list string) :
  Forall parses l ->
  Forall2 (fun entry n => net_ParseCIDR entry = inl n) l (parsed_ranges l).
Proof.
  induction 1 as [| a l [n Hn] _ IH]; [constructor |].
  rewrite (parsed_ranges_cons _ _ _ Hn). now constructor.
Qed.

(** [AddPeer] after validation: the endpoint is resolved again, and the
    peer is submitted in one call. *)
Lemma AddPeer_after_validation
  (s : Server) (req : client.AddPeerRequest) (st st1 : State) (k : Key) :
  validateAddPeerRequest (Some req) st = (inl tt, st1) ->
  client.AddPeerRequest_ValidateOnly req = false ->
  wgtypes_ParseKey (client.AddPeerRequest_PublicKey req) = inl k ->
  AddPeer s (Some req) st =
    match resolved (client.AddPeerRequest_Endpoint req) st1 with
    | (inr err, st2) =>
        (inr (invalid ("invalid endpoint: " ++ error_Error err)), st2)
    | (inl endpoint, st2) =>
        let (r, st3) := configured s (submitted_peer req k endpoint) st2 in
        (match r with
         | inl b => inl {| client.AddPeerResponse_OK := b |}
         | inr err => inr err
         end, st3)
    end.
Proof.
  intros Hval Hflag Hk.
  destruct (validateAddPeerRequest_passed _ _ _ Hval) as [Hfields Hall].
  apply validateAddPeerRequest_fields_pass in Hfields.
  destruct Hfields as (_ & Hpsk & _ & Hka).
  unfold AddPeer, bindE at 1, bind at 1. rewrite Hval.
  unfold configured, submitted_peer, resolved. run. rewrite Hflag, Hk. simpl.
  pose proof (optional_key _ Hpsk) as Hpsk'.
  pose proof (optional_duration _ Hka) as Hka'.
  destruct (negb (client.PresharedKey req =? "")%string);
    [destruct (wgtypes_ParseKey (client.PresharedKey req)); [| discriminate] |];
    injection Hpsk' as <-; simpl;
    (destruct (client.AddPeerRequest_Endpoint req =? "")%string; simpl;
     [| destruct (net_ResolveUDPAddr (client.AddPeerRequest_Endpoint req) (world st1))
          as [[a | err] w]; simpl; [| reflexivity]]);
    (destruct (negb (client.AddPeerRequest_PersistentKeepAlive req =? "")%string);
     [destruct (time_ParseDuration (client.AddPeerRequest_PersistentKeepAlive req));
      [| discriminate] |];
     injection Hka' as <-; simpl);
    rewrite (appendAllowedIPs_parsed _ _ _ Hall); simpl;
    match goal with
    | |- context [wgctrl.ConfigureDevice ?c ?n ?cfg ?w] =>
        destruct (wgctrl.ConfigureDevice c n cfg w) as [[perr |] w']
    end; reflexivity.
Qed.

(** X10: an [AddPeer] request that passed validation and is not
    validate-only resolves its endpoint once more, in the state validation
    left. When that fails the call fails with InvalidParams and the
    provider is not called. Otherwise the provider receives one
    [ConfigureDevice] call for the configured name with exactly one peer:
    the parsed public key, no removal, each optional field set when the
    request gave it, and the parsed entries of [allowed_ips], one for each
    entry and in their order; the call succeeds with [ok] true exactly
    when the provider accepts, and otherwise returns the provider's error
    behind "could not configure WireGuard device: ". *)
Theorem AddPeer_submits_one_peer :
  forall (s : Server) (req : client.AddPeerRequest) (st st1 : State) (k : Key),
    validateAddPeerRequest (Some req) st = (inl tt, st1) ->
    client.AddPeerRequest_ValidateOnly req = false ->
    wgtypes_ParseKey (client.AddPeerRequest_PublicKey req) = inl k ->
    AddPeer s (Some req) st =
      match resolved (client.AddPeerRequest_Endpoint req) st1 with
      | (inr err, st2) =>
          (inr (invalid ("invalid endpoint: " ++ error_Error err)), st2)
      | (inl endpoint, st2) =>
          let (r, st3) := configured s (submitted_peer req k endpoint) st2 in
          (match r with
           | inl b => inl {| client.AddPeerResponse_OK := b |}
           | inr err => inr err
           end, st3)
      end /\
    Forall2 (fun entry n => net_ParseCIDR entry = inl n)
      (client.AddPeerRequest_AllowedIPs req)
      (parsed_ranges (client.AddPeerRequest_AllowedIPs req)).
Proof.
  intros s req st st1 k Hval Hflag Hk. split.
  - now apply AddPeer_after_validation.
  - apply parsed_ranges_each.
    now destruct (validateAddPeerRequest_passed _ _ _ Hval).
Qed.

(** X11: a [RemovePeer] request with a well-formed key that is not
    validate-only makes one [ConfigureDevice] call for the configured
    name, with exactly one peer that carries the parsed key and the
    removal flag and nothing else. The provider's verdict is passed
    through: [ok] true when it accepts, and otherwise its error behind
    "could not configure WireGuard device: ", also when the key is not
    among the peers. *)
Theorem RemovePeer_submits_removal :
  forall (s : Server) (req : client.RemovePeerRequest) (st : State) (k : Key),
    String.length (client.RemovePeerRequest_PublicKey req) = 44%nat ->
    wgtypes_ParseKey (client.RemovePeerRequest_PublicKey req) = inl k ->
    client.RemovePeerRequest_ValidateOnly req = false ->
    RemovePeer s (Some req) st =
      let (r, st') := configured s (removal k) st in
      (match r with
       | inl b => inl {| client.RemovePeerResponse_OK := b |}
       | inr err => inr err
       end, st').
Proof.
  intros s req st k Hlen Hk Hflag.
  assert (Hkey : wellformed_key (client.RemovePeerRequest_PublicKey req))
    by (split; [exact Hlen | now exists k]).
  destruct (key_checks_pass _ Hkey) as (Hne & Hlen' & _).
  unfold RemovePeer, validateRemovePeerRequest, configured, removal. run.
  rewrite Hne, Hlen', Hk. simpl. rewrite Hflag. simpl.
  destruct (wgctrl.ConfigureDevice _ _ _ _) as [[perr |] w']; reflexivity.
Qed.

Lemma validateAddPeerRequest_error_kind
  (req : option client.AddPeerRequest) (st st1 : State) (err : error) :
  validateAddPeerRequest req st = (inr err, st1) -> is_InvalidParams err.
Proof.
  destruct req as [req |];
    [| intros [= <- _]; eexists; split; reflexivity].
  rewrite validateAddPeerRequest_allowed_ips_last.
  destruct (validateAddPeerRequest_fields req st)
    as (st' & _ & [-> | (e & -> & Hcode)]).
  - destruct (validateAllowedIPs_result (client.AddPeerRequest_AllowedIPs req) st')
      as [[-> _] | (err' & -> & Hkind & _)]; [discriminate |].
    now intros [= <- _].
  - intros [= <- _]. now exists e.
Qed.

(** X12: the errors a handler can return. [GetDeviceInfo] returns only
    the provider's error behind "could not get WireGuard device: ";
    [ListPeers] and [GetPeer] return that or an InvalidParams error;
    [AddPeer] and [RemovePeer] return an InvalidParams error or the
    provider's error behind "could not configure WireGuard device: ". No
    handler returns anything else: the nil dereference is never reached,
    and the plain "invalid public key" error of [RemovePeer] never
    occurs. *)
Theorem handler_error_kinds :
  forall (s : Server) (st : State),
    (forall req,
       match fst (GetDeviceInfo s req st) with
       | inl _ => True
       | inr err => exists perr, err = device_error perr
       end) /\
    (forall req,
       match fst (ListPeers s req st) with
       | inl _ => True
       | inr err => is_InvalidParams err \/ exists perr, err = device_error perr
       end) /\
    (forall req,
       match fst (GetPeer s req st) with
       | inl _ => True
       | inr err => is_InvalidParams err \/ exists perr, err = device_error perr
       end) /\
    (forall req,
       match fst (AddPeer s req st) with
       | inl _ => True
       | inr err => is_InvalidParams err \/ exists perr, err = configure_error perr
       end) /\
    (forall req,
       match fst (RemovePeer s req st) with
       | inl _ => True
       | inr err => is_InvalidParams err \/ exists perr, err = configure_error perr
       end).
Proof.
  intros s st.
  assert (Hinvalid : forall message, is_InvalidParams (invalid message))
    by (intros message; eexists; split; reflexivity).
  split; [| split; [| split; [| split]]]; intros req.
  - destruct (GetDeviceInfo s req st) as [[res | err] st'] eqn:Hrun; simpl;
      [exact I |].
    unfold GetDeviceInfo in Hrun. run. repeat branch_in Hrun.
    inversion Hrun; subst. now eexists.
  - destruct (ListPeers s req st) as [[res | err] st'] eqn:Hrun; simpl;
      [exact I |].
    unfold ListPeers, validateListPeersRequest in Hrun. run.
    destruct req as [req |]; simpl in Hrun; repeat branch_in Hrun;
      inversion Hrun; subst;
      first [left; apply Hinvalid | right; now eexists].
  - destruct (GetPeer s req st) as [[res | err] st'] eqn:Hrun; simpl;
      [exact I |].
    unfold GetPeer, validateGetPeerRequest in Hrun. run.
    destruct req as [req |]; simpl in Hrun; repeat branch_in Hrun;
      inversion Hrun; subst;
      first [left; apply Hinvalid | right; now eexists].
  - destruct (validateAddPeerRequest req st) as [[[] | err] st1] eqn:Hval.
    + destruct req as [req |]; [| discriminate Hval].
      destruct (client.AddPeerRequest_ValidateOnly req) eqn:Hflag.
      * unfold AddPeer, bindE, bind. rewrite Hval. simpl. rewrite Hflag. exact I.
      * destruct (validateAddPeerRequest_passed _ _ _ Hval) as [Hfields _].
        apply validateAddPeerRequest_fields_pass in Hfields.
        destruct Hfields as ([_ [k Hk]] & _).
        rewrite (AddPeer_after_validation s req st st1 k Hval Hflag Hk).
        destruct (resolved _ st1) as [[endpoint | err] st2]; simpl;
          [| left; apply Hinvalid].
        unfold configured, wg_ConfigureDevice.
        destruct (wgctrl.ConfigureDevice _ _ _ _) as [[perr |] w']; simpl;
          [right; now eexists | exact I].
    + unfold AddPeer, bindE, bind. rewrite Hval. simpl.
      left. eapply validateAddPeerRequest_error_kind, Hval.
  - destruct (RemovePeer s req st) as [[res | err] st'] eqn:Hrun; simpl;
      [exact I |].
    unfold RemovePeer, validateRemovePeerRequest in Hrun. run.
    destruct req as [req |]; simpl in Hrun; repeat branch_in Hrun;
      inversion Hrun; subst;
      first [left; apply Hinvalid | right; now eexists].
Qed.
End Submissions.

(** ** Translation to the wire, and how the readers agree *)

Section Views.
Context `{Runtime}.

(** X13: in the wire form of a peer, [has_preshared_key] is true exactly
    when the preshared key is not the all-zero key, a keep-alive interval
    that is zero or negative is left empty, and [allowed_ips] holds the
    text of every range, one for each and in their order. *)
Theorem peer2rpc_translation :
  forall (peer : wgtypes.Peer),
    (client.HasPresharedKey (peer2rpc peer) = true <->
     wgtypes.Peer_PresharedKey peer <> wgtypes.Key_zero) /\
    (wgtypes.Peer_PersistentKeepaliveInterval peer <= 0 ->
     client.Peer_PersistentKeepAlive (peer2rpc peer) = "") /\
    (0 < wgtypes.Peer_PersistentKeepaliveInterval peer ->
     client.Peer_PersistentKeepAlive (peer2rpc peer) =
       Duration_String (wgtypes.Peer_PersistentKeepaliveInterval peer)) /\
    client.Peer_AllowedIPs (peer2rpc peer) =
      map IPNet_String (wgtypes.Peer_AllowedIPs peer).
Proof.
  intros peer. unfold peer2rpc. simpl. repeat split.
  - intros Hflag Hzero. apply Key_eqb_eq in Hzero.
    rewrite Hzero in Hflag. discriminate.
  - intros Hzero.
    destruct (wgtypes.Key_eqb _ _) eqn:Heq; [| reflexivity].
    apply Key_eqb_eq in Heq. contradiction.
  - intros Hle. destruct (Z.ltb_spec 0 (wgtypes.Peer_PersistentKeepaliveInterval peer));
      [lia | reflexivity].
  - intros Hlt. destruct (Z.ltb_spec 0 (wgtypes.Peer_PersistentKeepaliveInterval peer));
      [reflexivity | lia].
  - apply (fold_left_append_map IPNet_String _ []).
Qed.

(** X14: on one and the same device, the [num_peers] that [GetDeviceInfo]
    reports is the number of peers that [ListPeers] returns. *)
Theorem num_peers_counts_listed_peers :
  forall (s : Server) (st1 st2 : State) (dev : wgtypes.Device) (w1 w2 : World)
         (req1 : option client.GetDeviceInfoRequest)
         (req2 : client.ListPeersRequest),
    wgctrl.Device (wg s) (deviceName s) (world st1) = (inl dev, w1) ->
    wgctrl.Device (wg s) (deviceName s) (world st2) = (inl dev, w2) ->
    validateListPeersRequest (Some req2) = None ->
    exists info listed,
      GetDeviceInfo s req1 st1 =
        (inl {| client.GetDeviceInfoResponse_Device := Some info |},
         after_Device s st1 w1) /\
      ListPeers s (Some req2) st2 = (inl listed, after_Device s st2 w2) /\
      client.Device_NumPeers info = Z.of_nat (List.length (client.Peers listed)).
Proof.
  intros s st1 st2 dev w1 w2 req1 req2 Hdev1 Hdev2 Hval.
  eexists _, _. split; [| split].
  - unfold GetDeviceInfo. run. rewrite Hdev1. reflexivity.
  - unfold ListPeers. rewrite Hval. run. rewrite Hdev2. reflexivity.
  - simpl. rewrite fold_left_append_map. simpl. now rewrite length_map.
Qed.

(** X15: a peer that [GetPeer] returns is one of the peers that
    [ListPeers] returns on the same device, and its public key is the
    text of the key that was asked for. *)
Theorem GetPeer_result_is_listed :
  forall (s : Server) (st1 st1' st2 : State) (dev : wgtypes.Device)
         (w1 w2 : World) (req1 : client.GetPeerRequest)
         (req2 : client.ListPeersRequest) (res : client.GetPeerResponse)
         (peer : client.Peer) (k : Key),
    wgctrl.Device (wg s) (deviceName s) (world st1) = (inl dev, w1) ->
    wgctrl.Device (wg s) (deviceName s) (world st2) = (inl dev, w2) ->
    validateListPeersRequest (Some req2) = None ->
    wgtypes_ParseKey (client.GetPeerRequest_PublicKey req1) = inl k ->
    GetPeer s (Some req1) st1 = (inl res, st1') ->
    client.GetPeerResponse_Peer res = Some peer ->
    client.Peer_PublicKey peer = Key_String k /\
    exists listed,
      ListPeers s (Some req2) st2 = (inl listed, after_Device s st2 w2) /\
      In peer (client.Peers listed).
Proof.
  intros s st1 st1' st2 dev w1 w2 req1 req2 res peer k
         Hdev1 Hdev2 Hval Hk Hrun Hpeer.
  assert (Hfound : exists p,
            In p (wgtypes.Peers dev) /\ wgtypes.Peer_PublicKey p = k /\
            peer = peer2rpc p).
  { unfold GetPeer, bindE, bind, check, try, deref, wg_Device, throw, ok, ret
      in Hrun.
    destruct (validateGetPeerRequest (Some req1)); [discriminate Hrun |].
    rewrite Hdev1 in Hrun. simpl in Hrun.
    rewrite Hk in Hrun. simpl in Hrun.
    destruct (find _ (wgtypes.Peers dev)) as [p |] eqn:Hfind;
      injection Hrun as <- _; simpl in Hpeer; [| discriminate].
    injection Hpeer as <-. apply find_some in Hfind. destruct Hfind as [Hin Heq].
    apply Key_eqb_eq in Heq. now exists p. }
  destruct Hfound as (p & Hin & Hkey & ->). split.
  - simpl. now rewrite Hkey.
  - eexists. split.
    + unfold ListPeers. rewrite Hval. run. rewrite Hdev2. reflexivity.
    + simpl. rewrite fold_left_append_map. simpl. now apply in_map.
Qed.
End Views.

(** ** The response writer *)

(** X17: [response.Write] never changes the version and the id of the
    response. Given an error that is not an RPC error, on a response that
    it does not refuse, it stores an InternalError, code -32603, with the
    text of that error and no data, and leaves the result as it was. *)
Theorem response_Write_keeps_the_envelope :
  forall (T : Type) (res : any T) (r : response T),
    Version (snd (response_Write res r)) = Version r /\
    ID (snd (response_Write res r)) = ID r /\
    (forall msg,
       fst (response_Write (OfError (ErrText msg)) r) = None ->
       Error_ (snd (response_Write (OfError (ErrText msg)) r)) =
         Some {| Code := -32603; Message := msg; Data := None |} /\
       Result (snd (response_Write (OfError (ErrText msg)) r)) = Result r).
Proof.
  intros T res r. unfold response_Write.
  destruct (negb (is_nil (Result r)) && negb (no_error (Error_ r))) eqn:Hguard.
  - repeat split; simpl in *; discriminate.
  - repeat split; destruct res as [| [e | msg'] | v]; reflexivity.
Qed.

(** ** The transport *)

Section Transport.
Context `{Host}.
Import transport.

(** X18: [HTTP] hands a request to the JSON-RPC handler only when it is a
    POST whose Content-Type begins with application/json and whose body
    decodes. Any other request is refused, with 405 for the method and
    400 for the content type and the body, in the state it found and
    whatever the handler is; a request that is handed over is answered
    with what the handler left in the response made for it, encoded as
    application/json. *)
Theorem HTTP_frames_or_refuses :
  forall (T : Type) (hf : Handler (response T)) (r : http.Request) (st : State),
    let hdr := http.Header_Get (http.Request_Header r) "Content-Type" in
    (http.Request_Method r <> "POST" /\
     HTTP hf r st = (http.Error "method not allowed" 405, st)) \/
    (http.Request_Method r = "POST" /\
     String.prefix "application/json" hdr = false /\
     HTTP hf r st =
       (http.Error ("unknown content type " ++ strconv_Quote hdr) 400, st)) \/
    (http.Request_Method r = "POST" /\
     String.prefix "application/json" hdr = true /\
     exists err,
       json_Decode (http.Body r) = inr err /\
       HTTP hf r st =
         (http.Error ("invalid request: " ++ error_Error err) 400, st)) \/
    (http.Request_Method r = "POST" /\
     String.prefix "application/json" hdr = true /\
     exists req,
       json_Decode (http.Body r) = inl req /\
       HTTP hf r st =
         (let (res, st') := hf (HTTP_response (received req r)) (received req r) st in
          (http.Encoded "application/json" res, st'))).
Proof.
  intros T hf r st hdr. unfold HTTP, http.MethodPost, ContentType. fold hdr.
  destruct (String.eqb_spec (http.Request_Method r) "POST") as [Hm | Hm]; simpl;
    [| left; now split].
  right. destruct (String.prefix "application/json" hdr) eqn:Hprefix; simpl;
    [| left; now repeat split].
  right. destruct (json_Decode (http.Body r)) as [req | err] eqn:Hbody.
  - right. repeat split; try assumption. exists req. split; [reflexivity |].
    unfold bind, received.
    destruct (hf _ _ st) as [res st']. reflexivity.
  - left. repeat split; try assumption. now exists err.
Qed.

Lemma headersExist_spec (h : http.Header) (keys : list string) :
  headersExist h keys = true <->
  exists key, In key keys /\ http.lookup h key <> None.
Proof.
  induction keys as [| key rest IH]; simpl.
  - split; [discriminate | intros (key & [] & _)].
  - destruct (http.lookup h key) as [v |] eqn:Hkey.
    + split; [intros _ | reflexivity].
      exists key. split; [now left | congruence].
    + rewrite IH. split.
      * intros (k & Hin & Hk). exists k. split; [now right | exact Hk].
      * intros (k & [<- | Hin] & Hk); [congruence |]. now exists k.
Qed.

(** X19: [PreventReferer] refuses with 403 every request whose headers
    hold the key Referer or the key Origin, whatever the value bound to
    it, an empty one included, and without running the next handler; a
    request with neither key is handled by the next handler as if the
    middleware were absent. *)
Theorem PreventReferer_blocks_browsers :
  forall (B : Type) (next : HTTPHandler B) (r : http.Request) (st : State),
    (http.lookup (http.Request_Header r) "Referer" <> None \/
     http.lookup (http.Request_Header r) "Origin" <> None ->
     PreventReferer next r st = (http.Error "forbidden" 403, st)) /\
    (no_browser_header r -> PreventReferer next r st = next r st).
Proof.
  intros B next r st. unfold PreventReferer, no_browser_header. simpl. split.
  - intros [Href | Horigin].
    + destruct (http.lookup _ "Referer"); [reflexivity | contradiction].
    + destruct (http.lookup _ "Referer"); [reflexivity |].
      destruct (http.lookup _ "Origin"); [reflexivity | contradiction].
  - intros [-> ->]. reflexivity.
Qed.

Lemma stringInSlice_In (s : string) (vv : list string) :
  stringInSlice s vv = true <-> In s vv.
Proof.
  induction vv as [| v rest IH]; simpl.
  - split; [discriminate | intros []].
  - destruct (String.eqb_spec v s) as [-> | Hne].
    + split; [now left | reflexivity].
    + rewrite IH. split; [now right | intros [Heq | Hin]; [contradiction | exact Hin]].
Qed.

(** X20: [AuthTokens] lets a request through exactly when the token it
    presents, the Authorization header without a leading "Token " and
    trimmed, is one of the configured tokens, by equality of strings;
    every other request is refused with 403 and the next handler does not
    run. With no configured token every request is refused. *)
Theorem AuthTokens_admits_configured_tokens :
  forall (B : Type) (tokens : list string) (next : HTTPHandler B)
         (r : http.Request) (st : State),
    (In (presented_token r) tokens -> AuthTokens tokens next r st = next r st) /\
    (~ In (presented_token r) tokens ->
     AuthTokens tokens next r st = (http.Error "forbidden" 403, st)) /\
    AuthTokens [] next r st = (http.Error "forbidden" 403, st).
Proof.
  intros B tokens next r st. unfold AuthTokens. fold (presented_token r).
  repeat split.
  - intros Hin. apply stringInSlice_In in Hin. now rewrite Hin.
  - intros Hout.
    destruct (stringInSlice (presented_token r) tokens) eqn:Hs; [| reflexivity].
    apply stringInSlice_In in Hs. contradiction.
Qed.

Lemma substring_all (s : string) : String.substring 0 (String.length s) s = s.
Proof. induction s as [| c s IH]; simpl; [reflexivity | now rewrite IH]. Qed.

Lemma TrimPrefix_Token (t : string) : strings.TrimPrefix ("Token " ++ t) "Token " = t.
Proof.
  unfold strings.TrimPrefix. simpl.
  assert (Hnil : String.prefix "" t = true) by (destruct t; reflexivity).
  rewrite Hnil, Nat.sub_0_r. apply substring_all.
Qed.

(** X21: the scheme of the Authorization header is optional. For a
    configured token that trimming leaves alone and that does not itself
    begin with "Token ", a request is let through both when its header is
    the token behind "Token " and when it is the bare token. *)
Theorem AuthTokens_scheme_is_optional :
  forall (B : Type) (tokens : list string) (next : HTTPHandler B)
         (r : http.Request) (st : State) (t : string),
    In t tokens ->
    strings_TrimSpace t = t ->
    String.prefix "Token " t = false ->
    http.Header_Get (http.Request_Header r) "Authorization" = "Token " ++ t \/
    http.Header_Get (http.Request_Header r) "Authorization" = t ->
    AuthTokens tokens next r st = next r st.
Proof.
  intros B tokens next r st t Hin Htrim Hbare Hheader.
  assert (Htoken : presented_token r = t).
  { unfold presented_token. destruct Hheader as [-> | ->].
    - now rewrite TrimPrefix_Token.
    - unfold strings.TrimPrefix. now rewrite Hbare. }
  unfold AuthTokens. fold (presented_token r). rewrite Htoken.
  apply stringInSlice_In in Hin. now rewrite Hin.
Qed.

Lemma Split_not_empty (s : string) (sep : ascii) : strings.Split s sep <> [].
Proof.
  destruct s as [| c s]; simpl; [discriminate |].
  destruct (Ascii.eqb c sep); [discriminate |].
  destruct (strings.Split s sep); discriminate.
Qed.

Lemma Split_length (s : string) (sep : ascii) :
  List.length (strings.Split s sep) =
    S (count_occ ascii_dec (list_ascii_of_string s) sep).
Proof.
  induction s as [| c s IH]; simpl; [reflexivity |].
  destruct (Ascii.eqb_spec c sep) as [-> | Hne].
  - destruct (ascii_dec sep sep); [| contradiction]. simpl. now rewrite IH.
  - destruct (ascii_dec c sep); [contradiction |].
    destruct (strings.Split s sep) as [| hd tl]; [discriminate IH | exact IH].
Qed.

Lemma Split_trailing (s : string) (sep : ascii) :
  exists init,
    init <> [] /\
    strings.Split (s ++ String sep EmptyString) sep = (init ++ [EmptyString])%list.
Proof.
  induction s as [| c s (init & Hinit & IH)]; simpl.
  - rewrite Ascii.eqb_refl. exists [EmptyString]. split; [discriminate | reflexivity].
  - destruct (Ascii.eqb c sep).
    + exists (EmptyString :: init). split; [discriminate |]. now rewrite IH.
    + rewrite IH. destruct init as [| hd tl]; [contradiction |].
      exists (String c hd :: tl). split; [discriminate | reflexivity].
Qed.

(** X22: [envArray] returns no token exactly when the variable is empty
    or unset; otherwise it returns the trimmed segments between the
    commas, one more than there are commas, empty segments included. *)
Theorem envArray_segments :
  forall (name : string),
    (os_Getenv name = "" -> envArray name = []) /\
    (os_Getenv name <> "" ->
     envArray name =
       map strings_TrimSpace (strings.Split (os_Getenv name) ","%char) /\
     List.length (envArray name) = S (commas (os_Getenv name))).
Proof.
  intros name. unfold envArray, commas. split.
  - intros ->. reflexivity.
  - intros Hne. apply String.eqb_neq in Hne. rewrite Hne.
    split; [reflexivity |]. now rewrite length_map, Split_length.
Qed.

(** X23: a list of tokens in the environment that ends in a comma
    configures the empty token, when trimming leaves the empty string
    empty; and with the empty token configured, a request without an
    Authorization header is let through. *)
Theorem empty_token_admits_anonymous :
  forall (B : Type) (name : string) (front : string) (flags : list string)
         (next : HTTPHandler B) (r : http.Request) (st : State),
    os_Getenv name = front ++ "," ->
    strings_TrimSpace "" = "" ->
    http.lookup (http.Request_Header r) "Authorization" = None ->
    In "" (envArray name) /\
    AuthTokens (flags ++ envArray name) next r st = next r st.
Proof.
  intros B name front flags next r st Henv Htrim Hheader.
  assert (Hin : In "" (envArray name)).
  { unfold envArray. rewrite Henv.
    destruct (String.eqb_spec (front ++ ",") "") as [Hempty | _].
    - destruct front; discriminate Hempty.
    - destruct (Split_trailing front ","%char) as (init & _ & ->).
      rewrite map_app. apply in_or_app. right. simpl. now left. }
  split; [exact Hin |].
  assert (Htoken : presented_token r = "").
  { unfold presented_token, http.Header_Get. rewrite Hheader. exact Htrim. }
  unfold AuthTokens. fold (presented_token r). rewrite Htoken.
  assert (Hs : In "" (flags ++ envArray name)) by (apply in_or_app; now right).
  apply stringInSlice_In in Hs. now rewrite Hs.
Qed.
End Transport.

(** ** From [main] to the handlers *)

Section EndToEnd.
Context `{Host}.
Import transport.

(** [Logger] runs the handler it wraps once, after reading the clock, and
    returns the writer that handler left; the clock and the log line add
    no call to the provider. *)
Lemma Logger_runs_next
  (W : Type) (next : Handler W) (w : W) (r : Request) (st : State) :
  exists st1,
    calls st1 = calls st /\
    forall w' st2,
      next w r st1 = (w', st2) ->
      exists st3, Logger next w r st = (w', st3) /\ calls st3 = calls st2.
Proof.
  unfold Logger, Now, Printf, bind, ret.
  destruct (time_Now (world st)) as [t1 w1].
  exists {| world := w1; calls := calls st |}. split; [reflexivity |].
  intros w' st2 ->.
  destruct (time_Now (world st2)) as [t2 w2].
  eexists. split; reflexivity.
Qed.

(** X24: a POST of application/json whose body decodes, served by the
    dispatcher behind the logger, is answered with an application/json
    response that has the version 2.0, the id of the decoded request
    whether the call succeeded or failed, and exactly one of a result and
    an error; the error has one of the codes -32000, -32700 and -32601. *)
Theorem served_over_HTTP :
  forall (decoder : Decoder) (s : Server) (r : http.Request) (st : State)
         (req : Request),
    http.Request_Method r = "POST" ->
    String.prefix "application/json"
      (http.Header_Get (http.Request_Header r) "Content-Type") = true ->
    json_Decode (http.Body r) = inl req ->
    exists res st',
      HTTP (Logger (ServeJSONRPC (W := response reply) s)) r st =
        (http.Encoded "application/json" res, st') /\
      Version res = "2.0" /\
      ID res = Request_ID req /\
      one_of_result_and_error res /\
      (forall e, Error_ res = Some e ->
                 Code e = -32000 \/ Code e = -32700 \/ Code e = -32601).
Proof.
  intros decoder s r st req Hm Hprefix Hbody.
  unfold HTTP, http.MethodPost, ContentType.
  rewrite Hm, Hprefix, Hbody. simpl. fold (received req r).
  destruct (Logger_runs_next _ (ServeJSONRPC (W := response reply) s)
              (HTTP_response (received req r)) (received req r) st)
    as (st1 & _ & Hlogged).
  destruct (dispatcher_writes_once decoder s (received req r) st1)
    as (x & st2 & Hx & Hrun).
  destruct (Hlogged _ _ (Hrun _ _ (HTTP_response (received req r))))
    as (st3 & Hlog & _).
  unfold bind. rewrite Hlog. eexists _, _. split; [reflexivity |].
  destruct Hx as [[v ->] | (e & -> & _ & Hcode)]; simpl.
  - repeat split.
    + left. now exists v.
    + discriminate.
  - repeat split.
    + right. now exists e.
    + now intros e' [= <-].
Qed.

Lemma effective_tokens (flags : list string) :
  (let tokens := envArray "WGAPI_TOKENS" in
   if (0 <? List.length tokens)%nat then (flags ++ tokens)%list else flags) =
  (flags ++ envArray "WGAPI_TOKENS")%list.
Proof.
  simpl. destruct (envArray "WGAPI_TOKENS") as [| t tokens]; simpl.
  - now rewrite app_nil_r.
  - reflexivity.
Qed.

Lemma no_browser_header_passes (r : http.Request) :
  no_browser_header r ->
  headersExist (http.Request_Header r) ["Referer"; "Origin"] = false.
Proof. intros [Href Horigin]. simpl. now rewrite Href, Horigin. Qed.

(** X25: the handler that [main] builds checks the browser headers first,
    then the token, then the framing. A request with the key Referer or
    Origin is refused with 403 whatever else it carries. Without those
    keys: when neither the flags nor the environment configure a token,
    no token is asked for; when some token is configured, a request that
    presents none of the configured tokens is refused with 403, and one
    that presents a configured token reaches the HTTP adapter. *)
Theorem main_handler_gates :
  forall (T : Type) (flags : list string) (svc : Handler (response T))
         (r : http.Request) (st : State),
    let tokens := (flags ++ envArray "WGAPI_TOKENS")%list in
    (http.lookup (http.Request_Header r) "Referer" <> None \/
     http.lookup (http.Request_Header r) "Origin" <> None ->
     main_handler flags svc r st = (http.Error "forbidden" 403, st)) /\
    (no_browser_header r -> tokens = [] ->
     main_handler flags svc r st = HTTP (Logger svc) r st) /\
    (no_browser_header r -> tokens <> [] -> ~ In (presented_token r) tokens ->
     main_handler flags svc r st = (http.Error "forbidden" 403, st)) /\
    (no_browser_header r -> In (presented_token r) tokens ->
     main_handler flags svc r st = HTTP (Logger svc) r st).
Proof.
  intros T flags svc r st tokens.
  unfold main_handler. rewrite effective_tokens. fold tokens.
  unfold PreventReferer. split; [| split; [| split]].
  - intros Hbrowser.
    assert (Hexist : headersExist (http.Request_Header r) ["Referer"; "Origin"] = true).
    { apply headersExist_spec. destruct Hbrowser as [Href | Horigin].
      - exists "Referer". split; [now left | exact Href].
      - exists "Origin". split; [right; now left | exact Horigin]. }
    now rewrite Hexist.
  - intros Hplain ->. now rewrite (no_browser_header_passes _ Hplain).
  - intros Hplain Hsome Hout. rewrite (no_browser_header_passes _ Hplain).
    destruct tokens as [| t rest]; [contradiction |].
    change (0 <? List.length (t :: rest))%nat with true. cbv iota.
    unfold AuthTokens. fold (presented_token r).
    destruct (stringInSlice (presented_token r) (t :: rest)) eqn:Hs; [| reflexivity].
    apply stringInSlice_In in Hs. contradiction.
  - intros Hplain Hin. rewrite (no_browser_header_passes _ Hplain).
    destruct tokens as [| t rest]; [destruct Hin |].
    change (0 <? List.length (t :: rest))%nat with true. cbv iota.
    unfold AuthTokens. fold (presented_token r).
    apply stringInSlice_In in Hin. now rewrite Hin.
Qed.
End EndToEnd.

(** ** One request, at most one call *)

Section CallBudget.
Context `{Runtime}.






End CallBudget.

(** ** Concrete runs of the further properties *)

(** X1 at the method DeleteEverything. *)
Lemma unknown_method_is_not_found_witness :
  @ServeJSONRPC fake.runtime fake.decoder _ _ fake.svc
    (HTTP_response (mkRequest "2.0" "DeleteEverything" "{}" "9" ""))
    (mkRequest "2.0" "DeleteEverything" "{}" "9" "")
    (fake.start [fake.entry1]) =
    ({| Version := "2.0";
        Result := Nil;
        Error_ := Some {| Code := -32601;
                          Message := "method not found";
                          Data := None |};
        ID := "9" |},
     fake.start [fake.entry1]).
Proof.
  refine (proj2 (unknown_method_is_not_found (H := fake.runtime) fake.decoder
                   _ _ fake.svc
                   (HTTP_response (mkRequest "2.0" "DeleteEverything" "{}" "9" ""))
                   (mkRequest "2.0" "DeleteEverything" "{}" "9" "")
                   (fake.start [fake.entry1]) _)).
  reflexivity.
Defined.

(** X2 at a [ListPeers] request whose parameters are cut short. *)
Lemma undecodable_params_are_a_parse_error_witness :
  @ServeJSONRPC fake.runtime fake.decoder _ _ fake.svc
    (HTTP_response (mkRequest "2.0" "ListPeers" "{limit:" "3" ""))
    (mkRequest "2.0" "ListPeers" "{limit:" "3" "")
    (fake.start [fake.entry1]) =
    ({| Version := "2.0";
        Result := Nil;
        Error_ := Some {| Code := -32700;
                          Message := "unexpected end of JSON input";
                          Data := None |};
        ID := "3" |},
     fake.start [fake.entry1]).
Proof.
  refine (proj2 (undecodable_params_are_a_parse_error (H := fake.runtime)
                   fake.decoder _ _ fake.svc
                   (HTTP_response (mkRequest "2.0" "ListPeers" "{limit:" "3" ""))
                   (mkRequest "2.0" "ListPeers" "{limit:" "3" "")
                   (fake.start [fake.entry1])
                   (ErrText "unexpected end of JSON input") _)).
  apply undecodable_ListPeers; reflexivity.
Defined.

(** X3 at a [GetDeviceInfo] request on an interface of one peer. *)
Lemma dispatcher_writes_handler_result_witness :
  exists info st',
    @ServeJSONRPC fake.runtime fake.decoder _ _ fake.svc
      (HTTP_response fake.info_request) fake.info_request
      (fake.start [fake.entry1]) =
      ({| Version := "2.0";
          Result := Value (OfGetDeviceInfo
                             {| client.GetDeviceInfoResponse_Device := Some info |});
          Error_ := None;
          ID := "1" |},
       st') /\
    client.Device_Name info = "wg0" /\
    client.Device_NumPeers info = 1.
Proof.
  eexists _, _. split.
  - refine (proj2 (dispatcher_writes_handler_result (H := fake.runtime)
                     fake.decoder _ _ fake.svc
                     (HTTP_response fake.info_request) fake.info_request
                     (fake.start [fake.entry1]) _ _ _)).
    eapply (returns_GetDeviceInfo (H := fake.runtime) (H0 := fake.decoder));
      [reflexivity | evaluate; reflexivity | reflexivity].
  - split; reflexivity.
Defined.

(** X6 at a server whose interface does not exist. *)
Lemma provider_failure_on_read_witness :
  GetDeviceInfo fake_host.svc_missing (Some client.mkGetDeviceInfoRequest)
    (fake.start []) =
    (inr (ErrText "could not get WireGuard device: file does not exist"),
     after_Device fake_host.svc_missing (fake.start []) []) /\
  ListPeers fake_host.svc_missing (Some (client.mkListPeersRequest 0 0))
    (fake.start []) =
    (inr (ErrText "could not get WireGuard device: file does not exist"),
     after_Device fake_host.svc_missing (fake.start []) []) /\
  GetPeer fake_host.svc_missing (Some (client.mkGetPeerRequest fake.key1))
    (fake.start []) =
    (inr (ErrText "could not get WireGuard device: file does not exist"),
     after_Device fake_host.svc_missing (fake.start []) []).
Proof.
  destruct (provider_failure_on_read (H := fake.runtime) fake_host.svc_missing
              (fake.start []) (ErrText "file does not exist") [] eq_refl)
    as (Hinfo & Hlist & Hpeer).
  split; [apply Hinfo | split].
  - apply Hlist. reflexivity.
  - apply Hpeer. exact key1_wellformed.
Defined.

(** X7 at requests that the four validators refuse. *)
Lemma validation_failure_short_circuits_witness :
  ListPeers fake.svc (Some (client.mkListPeersRequest 0 (-4)))
    (fake.start [fake.entry1]) =
    (inr (invalid "offset must be positive integer"), fake.start [fake.entry1]) /\
  GetPeer fake.svc (Some (client.mkGetPeerRequest "")) (fake.start [fake.entry1]) =
    (inr (invalid "public key is required"), fake.start [fake.entry1]) /\
  RemovePeer fake.svc (Some (client.mkRemovePeerRequest "short" false))
    (fake.start [fake.entry1]) =
    (inr (invalid "malformed public key"), fake.start [fake.entry1]) /\
  AddPeer fake.svc
    (Some (client.mkAddPeerRequest fake.key1 "" "1.2.3.4:51820" "soon" [] false))
    (fake.start [fake.entry1]) =
    (inr (invalid "invalid keepalive: time: invalid duration soon"),
     fake.start [fake.entry1]).
Proof.
  destruct (validation_failure_short_circuits (H := fake.runtime) fake.svc
              (fake.start [fake.entry1]))
    as (Hlist & Hget & Hremove & Hadd).
  split; [| split; [| split]].
  - apply Hlist. reflexivity.
  - apply Hget. reflexivity.
  - apply Hremove. reflexivity.
  - apply (Hadd (Some (client.mkAddPeerRequest fake.key1 "" "1.2.3.4:51820"
                         "soon" [] false))).
    reflexivity.
Defined.

(** X8 at a request with every field given, in both directions. *)
Lemma validateAddPeerRequest_passes_iff_witness :
  (@wellformed_key fake.runtime fake.key1 /\
   Forall (@parses fake.runtime) ["10.1.1.0/24"; "10.2.0.0/16"]) /\
  validateAddPeerRequest (Some fake_host.full_request) (fake.start []) =
    (inl tt, fake.start []).
Proof.
  assert (Hrun : validateAddPeerRequest (Some fake_host.full_request) (fake.start []) =
                   (inl tt, fake.start [])).
  { apply (proj2 (validateAddPeerRequest_passes_iff (H := fake.runtime)
                    fake_host.full_request (fake.start []) (fake.start []))).
    split; [exact key1_wellformed |].
    split; [right; split; [reflexivity | eexists; vm_compute; reflexivity] |].
    split; [exists (Some "1.2.3.4:51820"); reflexivity |].
    split; [right; eexists; reflexivity |].
    repeat constructor; eexists; reflexivity. }
  split; [| exact Hrun].
  destruct (proj1 (validateAddPeerRequest_passes_iff (H := fake.runtime)
                     fake_host.full_request (fake.start []) (fake.start [])) Hrun)
    as (Hpk & _ & _ & _ & Hall).
  split; [exact Hpk | exact Hall].
Defined.

(** X9 at an endpoint without a port beside a keep-alive and a range that
    do not parse, and at a keep-alive that does not parse beside a range
    that does not parse. *)
Lemma validateAddPeerRequest_reports_first_failure_witness :
  validateAddPeerRequest
    (Some (client.mkAddPeerRequest fake.key1 "" "nowhere" "soon" ["10.1.1.0/99"] false))
    (fake.start []) =
    (inr (invalid "invalid endpoint: address nowhere: missing port in address"),
     fake.start []) /\
  validateAddPeerRequest
    (Some (client.mkAddPeerRequest fake.key1 "" "" "soon" ["10.1.1.0/99"] false))
    (fake.start []) =
    (inr (invalid "invalid keepalive: time: invalid duration soon"),
     fake.start []).
Proof.
  split.
  - refine (proj1 (validateAddPeerRequest_reports_first_failure (H := fake.runtime)
                     (client.mkAddPeerRequest fake.key1 "" "nowhere" "soon"
                        ["10.1.1.0/99"] false)
                     (fake.start []) (fake.start []) key1_wellformed _)
                  (ErrText "address nowhere: missing port in address") _).
    + now left.
    + reflexivity.
  - refine (proj2 (validateAddPeerRequest_reports_first_failure (H := fake.runtime)
                     (client.mkAddPeerRequest fake.key1 "" "" "soon"
                        ["10.1.1.0/99"] false)
                     (fake.start []) (fake.start []) key1_wellformed _)
                  None (ErrText "time: invalid duration soon") _ _ _).
    + now left.
    + reflexivity.
    + discriminate.
    + reflexivity.
Defined.

(** X10 at a request with every field given, on an empty interface: one
    call, one peer with two ranges, and [ok] true. *)
Lemma AddPeer_submits_one_peer_witness :
  exists peer w,
    AddPeer fake.svc (Some fake_host.full_request) (fake.start []) =
      (inl {| client.AddPeerResponse_OK := true |},
       {| world := w;
          calls := [CallConfigureDevice "wg0" {| wgtypes.Config_Peers := [peer] |}] |}) /\
    wgtypes.PeerConfig_PublicKey peer = fake.key_of fake.key1 /\
    wgtypes.PeerConfig_PresharedKey peer = Some (fake.key_of fake.key2) /\
    wgtypes.PeerConfig_AllowedIPs peer = ["10.1.1.0/24"; "10.2.0.0/16"].
Proof.
  destruct (AddPeer_submits_one_peer (H := fake.runtime) fake.svc
              fake_host.full_request (fake.start []) (fake.start [])
              (fake.key_of fake.key1))
    as [Hrun _].
  - reflexivity.
  - reflexivity.
  - reflexivity.
  - eexists _, _. split; [rewrite Hrun; evaluate; reflexivity |].
    repeat split; reflexivity.
Defined.

(** X11 at the key of the one peer of an interface: one call, and the
    peer is gone. *)
Lemma RemovePeer_submits_removal_witness :
  RemovePeer fake.svc (Some (client.mkRemovePeerRequest fake.key1 false))
    (fake.start [fake.entry1]) =
    (inl {| client.RemovePeerResponse_OK := true |},
     {| world := [] : @World fake.runtime;
        calls := [CallConfigureDevice "wg0"
                    {| wgtypes.Config_Peers :=
                         [@removal fake.runtime (fake.key_of fake.key1)] |}] |}).
Proof.
  rewrite (RemovePeer_submits_removal (H := fake.runtime) fake.svc
             (client.mkRemovePeerRequest fake.key1 false)
             (fake.start [fake.entry1]) (fake.key_of fake.key1)
             eq_refl eq_refl eq_refl).
  reflexivity.
Defined.

(** X13 at a peer with a preshared key and no keep-alive, and at a peer
    with a keep-alive of 25 seconds. *)
Lemma peer2rpc_translation_witness :
  client.HasPresharedKey (peer2rpc (fake.peer_of_entry fake.entry2)) = true /\
  client.Peer_PersistentKeepAlive (peer2rpc (fake.peer_of_entry fake.entry2)) = "" /\
  client.Peer_PersistentKeepAlive (peer2rpc (fake.peer_of_entry fake.entry1)) = "25s".
Proof.
  destruct (peer2rpc_translation (H := fake.runtime) (fake.peer_of_entry fake.entry2))
    as (Hflag & Hnone & _ & _).
  destruct (peer2rpc_translation (H := fake.runtime) (fake.peer_of_entry fake.entry1))
    as (_ & _ & Hsome & _).
  split; [| split].
  - apply Hflag. discriminate.
  - apply Hnone. simpl. lia.
  - rewrite Hsome; [reflexivity | simpl; lia].
Defined.

(** X14 on an interface of two peers. *)
Lemma num_peers_counts_listed_peers_witness :
  exists info listed,
    GetDeviceInfo fake.svc None (fake.start [fake.entry2; fake.entry1]) =
      (inl {| client.GetDeviceInfoResponse_Device := Some info |},
       after_Device fake.svc (fake.start [fake.entry2; fake.entry1])
         [fake.entry2; fake.entry1]) /\
    ListPeers fake.svc (Some (client.mkListPeersRequest 0 0))
      (fake.start [fake.entry2; fake.entry1]) =
      (inl listed,
       after_Device fake.svc (fake.start [fake.entry2; fake.entry1])
         [fake.entry2; fake.entry1]) /\
    client.Device_NumPeers info = Z.of_nat (List.length (client.Peers listed)).
Proof.
  refine (num_peers_counts_listed_peers (H := fake.runtime) fake.svc
            (fake.start [fake.entry2; fake.entry1])
            (fake.start [fake.entry2; fake.entry1])
            _ [fake.entry2; fake.entry1] [fake.entry2; fake.entry1]
            None (client.mkListPeersRequest 0 0) eq_refl eq_refl eq_refl).
Defined.

(** X15 at the key of the README, on an interface of two peers. *)
Lemma GetPeer_result_is_listed_witness :
  exists listed,
    ListPeers fake.svc (Some (client.mkListPeersRequest 0 0))
      (fake.start [fake.entry2; fake.entry1]) =
      (inl listed,
       after_Device fake.svc (fake.start [fake.entry2; fake.entry1])
         [fake.entry2; fake.entry1]) /\
    In (peer2rpc (fake.peer_of_entry fake.entry1)) (client.Peers listed).
Proof.
  refine (proj2 (GetPeer_result_is_listed (H := fake.runtime) fake.svc
                   (fake.start [fake.entry2; fake.entry1])
                   (after_Device fake.svc (fake.start [fake.entry2; fake.entry1])
                      [fake.entry2; fake.entry1])
                   (fake.start [fake.entry2; fake.entry1])
                   _ [fake.entry2; fake.entry1] [fake.entry2; fake.entry1]
                   (client.mkGetPeerRequest fake.key1)
                   (client.mkListPeersRequest 0 0)
                   {| client.GetPeerResponse_Peer :=
                        Some (peer2rpc (fake.peer_of_entry fake.entry1)) |}
                   (peer2rpc (fake.peer_of_entry fake.entry1))
                   (fake.key_of fake.key1)
                   eq_refl eq_refl eq_refl eq_refl _ eq_refl)).
  reflexivity.
Defined.

(** X16 at a response with a result and an error, which is refused, and
    at a response with a result alone, which is not. *)
Lemma response_Write_guard_witness :
  fst (response_Write (Value 2)
         (mkResponse "2.0" (Value 1) (Some (InternalError "boom" None)) "1")) <> None /\
  ~ (fst (response_Write (Value 2) (mkResponse "2.0" (Value 1) None "1")) <> None).
Proof.
  split.
  - apply (proj2 (response_Write_guard Z (Value 2)
                    (mkResponse "2.0" (Value 1) (Some (InternalError "boom" None)) "1"))).
    split; discriminate.
  - intros Hrefused.
    apply (proj1 (response_Write_guard Z (Value 2)
                    (mkResponse "2.0" (Value 1) None "1"))) in Hrefused.
    destruct Hrefused as [_ Herror]. now apply Herror.
Defined.

(** X17 at a plain error written to a fresh response. *)
Lemma response_Write_keeps_the_envelope_witness :
  Error_ (snd (response_Write (OfError (ErrText "boom"))
                 (HTTP_response (T := Z) fake.info_request))) =
    Some {| Code := -32603; Message := "boom"; Data := None |} /\
  Result (snd (response_Write (OfError (ErrText "boom"))
                 (HTTP_response (T := Z) fake.info_request))) = Nil.
Proof.
  apply (proj2 (proj2 (response_Write_keeps_the_envelope Z Nil
                         (HTTP_response fake.info_request)))).
  reflexivity.
Defined.

(** X19 at a request with an Origin header bound to no value, and at a
    request without browser headers. *)
Lemma PreventReferer_blocks_browsers_witness :
  transport.PreventReferer (H := fake.runtime)
    (fun _ => ret (http.Encoded "text/plain" 7))
    (fake_host.post [("Origin", [])] "{method:GetDeviceInfo,id:1}")
    (fake.start [fake.entry1]) =
    (http.Error "forbidden" 403, fake.start [fake.entry1]) /\
  transport.PreventReferer (H := fake.runtime)
    (fun _ => ret (http.Encoded "text/plain" 7))
    (fake_host.post [] "{method:GetDeviceInfo,id:1}")
    (fake.start [fake.entry1]) =
    (http.Encoded "text/plain" 7, fake.start [fake.entry1]).
Proof.
  split.
  - apply (proj1 (PreventReferer_blocks_browsers (H := fake.runtime) _
                    (fun _ => ret (http.Encoded "text/plain" 7))
                    (fake_host.post [("Origin", [])] "{method:GetDeviceInfo,id:1}")
                    (fake.start [fake.entry1]))).
    right. discriminate.
  - apply (proj2 (PreventReferer_blocks_browsers (H := fake.runtime) _
                    (fun _ => ret (http.Encoded "text/plain" 7))
                    (fake_host.post [] "{method:GetDeviceInfo,id:1}")
                    (fake.start [fake.entry1]))).
    split; reflexivity.
Defined.

(** X20 at the tokens alpha and beta: a request that presents beta is let
    through, one that presents gamma is refused. *)
Lemma AuthTokens_admits_configured_tokens_witness :
  transport.AuthTokens (H0 := fake_host.host "") ["alpha"; "beta"]
    (fun _ => ret (http.Encoded "text/plain" 7))
    (fake_host.post [("Authorization", ["Token beta "])] "")
    (fake.start []) =
    (http.Encoded "text/plain" 7, fake.start []) /\
  transport.AuthTokens (H0 := fake_host.host "") ["alpha"; "beta"]
    (fun _ => ret (http.Encoded "text/plain" 7))
    (fake_host.post [("Authorization", ["Token gamma"])] "")
    (fake.start []) =
    (http.Error "forbidden" 403, fake.start []).
Proof.
  split.
  - apply (proj1 (AuthTokens_admits_configured_tokens (H0 := fake_host.host "")
                    _ ["alpha"; "beta"] (fun _ => ret (http.Encoded "text/plain" 7))
                    (fake_host.post [("Authorization", ["Token beta "])] "")
                    (fake.start []))).
    right; left; reflexivity.
  - apply (proj1 (proj2 (AuthTokens_admits_configured_tokens
                           (H0 := fake_host.host "")
                           _ ["alpha"; "beta"]
                           (fun _ => ret (http.Encoded "text/plain" 7))
                           (fake_host.post [("Authorization", ["Token gamma"])] "")
                           (fake.start [])))).
    intros [Ha | [Hb | []]]; discriminate.
Defined.

(** X21 at the token alpha, presented bare. *)
Lemma AuthTokens_scheme_is_optional_witness :
  transport.AuthTokens (H0 := fake_host.host "") ["alpha"; "beta"]
    (fun _ => ret (http.Encoded "text/plain" 7))
    (fake_host.post [("Authorization", ["alpha"])] "")
    (fake.start []) =
    (http.Encoded "text/plain" 7, fake.start []).
Proof.
  apply (AuthTokens_scheme_is_optional (H0 := fake_host.host "")
           _ ["alpha"; "beta"] (fun _ => ret (http.Encoded "text/plain" 7))
           (fake_host.post [("Authorization", ["alpha"])] "")
           (fake.start []) "alpha").
  - now left.
  - reflexivity.
  - reflexivity.
  - now right.
Defined.

(** X22 at an unset variable, and at a variable with two commas. *)
Lemma envArray_segments_witness :
  transport.envArray (H0 := fake_host.host "") "WGAPI_TOKENS" = [] /\
  transport.envArray (H0 := fake_host.host "alpha, beta,") "WGAPI_TOKENS" =
    ["alpha"; "beta"; ""].
Proof.
  split.
  - apply (proj1 (envArray_segments (H0 := fake_host.host "") "WGAPI_TOKENS")).
    reflexivity.
  - destruct (proj2 (envArray_segments (H0 := fake_host.host "alpha, beta,")
                       "WGAPI_TOKENS")) as [Hsegments _].
    + discriminate.
    + rewrite Hsegments. reflexivity.
Defined.

(** X23 at the variable alpha, beta followed by a comma: a request with
    no Authorization header is let through. *)
Lemma empty_token_admits_anonymous_witness :
  In "" (transport.envArray (H0 := fake_host.host "alpha, beta,") "WGAPI_TOKENS") /\
  transport.AuthTokens (H0 := fake_host.host "alpha, beta,")
    (["gamma"] ++ transport.envArray (H0 := fake_host.host "alpha, beta,") "WGAPI_TOKENS")
    (fun _ => ret (http.Encoded "text/plain" 7))
    (fake_host.post [] "")
    (fake.start []) =
    (http.Encoded "text/plain" 7, fake.start []).
Proof.
  apply (empty_token_admits_anonymous (H0 := fake_host.host "alpha, beta,")
           _ "WGAPI_TOKENS" "alpha, beta" ["gamma"]
           (fun _ => ret (http.Encoded "text/plain" 7))
           (fake_host.post [] "") (fake.start []));
    reflexivity.
Defined.

(** X24 at a [ListPeers] call with a negative limit: the response carries
    the id 7 of the request and an error of code -32000. *)
Lemma served_over_HTTP_witness :
  exists res st',
    transport.HTTP (H0 := fake_host.host "")
      (transport.Logger (H0 := fake_host.host "") fake_host.dispatcher)
      (fake_host.post [] "{method:ListPeers,params:{limit:-1},id:7}")
      (fake.start [fake.entry1]) =
      (http.Encoded "application/json" res, st') /\
    Version res = "2.0" /\
    ID res = "7" /\
    one_of_result_and_error res /\
    (forall e, Error_ res = Some e ->
               Code e = -32000 \/ Code e = -32700 \/ Code e = -32601).
Proof.
  apply (served_over_HTTP (H0 := fake_host.host "") fake.decoder fake.svc
           (fake_host.post [] "{method:ListPeers,params:{limit:-1},id:7}")
           (fake.start [fake.entry1])
           (mkRequest "2.0" "ListPeers" "{limit:-1}" "7" ""));
    reflexivity.
Defined.

(** X25 with the token alpha from the flag: a request with a Referer
    header is refused although it presents the token, a request that
    presents no token is refused, and one that presents alpha reaches the
    adapter; with no token configured no token is asked for. *)
Lemma main_handler_gates_witness :
  transport.main_handler (H0 := fake_host.host "") ["alpha"] fake_host.dispatcher
    (fake_host.post [("Referer", ["http://localhost/"]);
                     ("Authorization", ["Token alpha"])]
       "{method:GetDeviceInfo,id:1}")
    (fake.start []) =
    (http.Error "forbidden" 403, fake.start []) /\
  transport.main_handler (H0 := fake_host.host "") ["alpha"] fake_host.dispatcher
    (fake_host.post [] "{method:GetDeviceInfo,id:1}") (fake.start []) =
    (http.Error "forbidden" 403, fake.start []) /\
  transport.main_handler (H0 := fake_host.host "") ["alpha"] fake_host.dispatcher
    (fake_host.post [("Authorization", ["Token alpha"])] "{method:GetDeviceInfo,id:1}")
    (fake.start []) =
  transport.HTTP (H0 := fake_host.host "")
    (transport.Logger (H0 := fake_host.host "") fake_host.dispatcher)
    (fake_host.post [("Authorization", ["Token alpha"])] "{method:GetDeviceInfo,id:1}")
    (fake.start []) /\
  transport.main_handler (H0 := fake_host.host "") [] fake_host.dispatcher
    (fake_host.post [] "{method:GetDeviceInfo,id:1}") (fake.start []) =
  transport.HTTP (H0 := fake_host.host "")
    (transport.Logger (H0 := fake_host.host "") fake_host.dispatcher)
    (fake_host.post [] "{method:GetDeviceInfo,id:1}") (fake.start []).
Proof.
  split; [| split; [| split]].
  - apply (proj1 (main_handler_gates (H0 := fake_host.host "") _ ["alpha"] fake_host.dispatcher
                    (fake_host.post [("Referer", ["http://localhost/"]);
                                     ("Authorization", ["Token alpha"])]
                       "{method:GetDeviceInfo,id:1}")
                    (fake.start []))).
    left. discriminate.
  - apply (proj1 (proj2 (proj2 (main_handler_gates (H0 := fake_host.host "") _
                                  ["alpha"] fake_host.dispatcher
                                  (fake_host.post [] "{method:GetDeviceInfo,id:1}")
                                  (fake.start []))))).
    + split; reflexivity.
    + discriminate.
    + intros [Ha | []]. discriminate Ha.
  - apply (proj2 (proj2 (proj2 (main_handler_gates (H0 := fake_host.host "") _
                                  ["alpha"] fake_host.dispatcher
                                  (fake_host.post [("Authorization", ["Token alpha"])]
                                     "{method:GetDeviceInfo,id:1}")
                                  (fake.start []))))).
    + split; reflexivity.
    + left. reflexivity.
  - apply (proj1 (proj2 (main_handler_gates (H0 := fake_host.host "") _
                           [] fake_host.dispatcher
                           (fake_host.post [] "{method:GetDeviceInfo,id:1}")
                           (fake.start [])))).
    + split; reflexivity.
    + reflexivity.
Defined.
